(** * AzureRM provider: resource-ID codec, paginated list completion and
    CRUD handlers

    A shallow embedding of
    - the Logz sub-account tag-rule identifier codec exercised by
      [internal/services/logz/parse/logz_sub_account_tag_rule_test.go],
    - the generated [configurations] list client (ListByServer, its
      responder, HasMore / LoadMore and the two completion operations),
    - the Spring Cloud app/Redis association handlers
      ([spring_cloud_app_redis_association_resource.go]) and the create
      function of the Stream Analytics [OutputTableResource].

    Go functions returning [(value, error)] are embedded as functions
    returning a pair whose second component is [option error] ([None] is
    Go's [nil]); network traffic is recorded in an explicit log that every
    effectful function threads through.  Contexts with their deadlines and
    [log.Printf] are left out; loops that follow continuation tokens get a
    budget of iterations. *)

From stdpp Require Import base option list strings gmap.
From Stdlib Require Import Ascii.
From Stdlib Require String.

Set Default Proof Using "Type".

(* ===================================================================== *)
(** * Part I: definitions                                                 *)
(* ===================================================================== *)

(** ** Outcomes of effectful code

    [L] is the type of the log of requests issued so far.  A computation
    either returns a value together with the extended log, panics (a nil
    function value is called, a type assertion fails), or has not finished
    within the loop budget it was given. *)

Inductive outcome (L A : Type) : Type :=
| Done (a : A) (log : L)
| Panic (log : L)
| OutOfFuel.
Arguments Done {L A} a log.
Arguments Panic {L A} log.
Arguments OutOfFuel {L A}.

Definition M (L A : Type) : Type := L -> outcome L A.

Definition ret {L A} (a : A) : M L A := fun log => Done a log.

Definition bind {L A B} (m : M L A) (k : A -> M L B) : M L B :=
  fun log =>
    match m log with
    | Done a log' => k a log'
    | Panic log' => Panic log'
    | OutOfFuel => OutOfFuel
    end.

Definition panic {L A} : M L A := fun log => Panic log.

Definition mapOutcome {L A B} (f : A -> B) (o : outcome L A) : outcome L B :=
  match o with
  | Done a log => Done (f a) log
  | Panic log => Panic log
  | OutOfFuel => OutOfFuel
  end.

Declare Scope go_scope.
Delimit Scope go_scope with go.
Notation "'let*' p ':=' m 'in' k" := (bind m (fun p => k))
  (at level 10, p pattern, m at level 100, k at level 200) : go_scope.
Local Open Scope go_scope.

(** ** Go errors

    An [*http.Response] as far as the clients look at it. *)

Record http_Response : Type := mk_http_Response {
  StatusCode : nat;
  Body : string
}.

(** Error values keep the shape the source gives them: the format string
    and arguments of [fmt.Errorf], the fields of
    [autorest.NewErrorWithError], the import-collision errors of the
    provider, and errors handed over by an external collaborator. *)

Inductive error : Type :=
| Errorf (format : string) (args : list fmtArg)
| NewErrorWithError (original : error) (packageType method : string)
    (resp : option http_Response) (message : string)
| ImportAsExistsError (resourceName id : string)
| ResourceRequiresImport (resourceType id : string)
| upstream (reason : string)
with fmtArg : Type :=
| ArgString (s : string)
| ArgError (e : error).

(** ** The Logz sub-account tag-rule identifier *)

Module Logz.

Record LogzSubAccountTagRuleId : Type := mkLogzSubAccountTagRuleId {
  SubscriptionId : string;
  ResourceGroup : string;
  MonitorName : string;
  AccountName : string;
  TagRuleName : string
}.

(** Modelled from the spec: the constructor [NewLogzSubAccountTagRuleID]
    lives in logz_sub_account_tag_rule.go, which is not among the
    sources; it stores its five arguments. *)
Definition NewLogzSubAccountTagRuleID
    (subscriptionId resourceGroup monitorName accountName tagRuleName : string)
    : LogzSubAccountTagRuleId :=
  {| SubscriptionId := subscriptionId;
     ResourceGroup := resourceGroup;
     MonitorName := monitorName;
     AccountName := accountName;
     TagRuleName := tagRuleName |}.

(** Modelled from the spec: the formatter [ID] (logz_sub_account_tag_rule.go
    is missing).  "Format(components) -> string produces a slash-delimited
    path with fixed, case-sensitive literal segments"; the literals are
    those of the expected string in TestLogzSubAccountTagRuleIDFormatter. *)
Definition ID (id : LogzSubAccountTagRuleId) : string :=
  "/subscriptions/" +:+ SubscriptionId id +:+
  "/resourceGroups/" +:+ ResourceGroup id +:+
  "/providers/Microsoft.Logz/monitors/" +:+ MonitorName id +:+
  "/accounts/" +:+ AccountName id +:+
  "/tagRules/" +:+ TagRuleName id.

Definition slash : ascii := "/"%char.

(** [strings.Split(s, "/")]. *)
Fixpoint segments (s : string) : list string :=
  match s with
  | EmptyString => [EmptyString]
  | String c s' =>
      if Ascii.eqb c slash then EmptyString :: segments s'
      else match segments s' with
           | seg :: rest => String c seg :: rest
           | [] => [String c EmptyString]
           end
  end.

(** [strings.Join(segs, "/")]. *)
Fixpoint joinSegments (segs : list string) : string :=
  match segs with
  | [] => EmptyString
  | [seg] => seg
  | seg :: rest => seg +:+ String slash (joinSegments rest)
  end.

(** One [key/value] pair of the path: the literal [key] must be the next
    segment, spelled exactly, and must be followed by a non-empty value. *)
Definition popSegment (key : string) (segs : list string)
    : (string * list string) + error :=
  match segs with
  | k :: v :: rest =>
      if String.eqb k key then
        if String.eqb v "" then
          inr (Errorf "ID was missing a value for the %q element" [ArgString key])
        else inl (v, rest)
      else inr (Errorf "ID was missing the %q element" [ArgString key])
  | _ => inr (Errorf "ID was missing the %q element" [ArgString key])
  end.

Definition providerNamespace : string := "Microsoft.Logz".

(** Modelled from the spec: the parser [LogzSubAccountTagRuleID]
    (logz_sub_account_tag_rule.go is missing).  "Parse(string) ->
    (components, error) fails with a descriptive error if any required
    segment or its value is missing, and fails on case mismatches ... No
    normalization occurs"; it is "the inverse of formatting". *)
Definition LogzSubAccountTagRuleID (input : string)
    : LogzSubAccountTagRuleId + error :=
  match segments input with
  | lead :: segs =>
      if negb (String.eqb lead "") then
        inr (Errorf "ID %q did not start with a slash" [ArgString input])
      else
        match popSegment "subscriptions" segs with
        | inr e => inr e
        | inl (subscriptionId, segs) =>
        match popSegment "resourceGroups" segs with
        | inr e => inr e
        | inl (resourceGroup, segs) =>
        match popSegment "providers" segs with
        | inr e => inr e
        | inl (provider, segs) =>
        if negb (String.eqb provider providerNamespace) then
          inr (Errorf "ID was missing the %q provider" [ArgString providerNamespace])
        else
        match popSegment "monitors" segs with
        | inr e => inr e
        | inl (monitorName, segs) =>
        match popSegment "accounts" segs with
        | inr e => inr e
        | inl (accountName, segs) =>
        match popSegment "tagRules" segs with
        | inr e => inr e
        | inl (tagRuleName, segs) =>
        match segs with
        | [] => inl (NewLogzSubAccountTagRuleID subscriptionId resourceGroup
                       monitorName accountName tagRuleName)
        | _ :: _ =>
            inr (Errorf "ID %q contained unexpected segments" [ArgString input])
        end end end end end end end
  | [] => inr (Errorf "ID was empty" [])
  end.

(** The segments of a formatted identifier, in order. *)
Definition idSegments (id : LogzSubAccountTagRuleId) : list string :=
  [ ""; "subscriptions"; SubscriptionId id;
    "resourceGroups"; ResourceGroup id;
    "providers"; providerNamespace;
    "monitors"; MonitorName id;
    "accounts"; AccountName id;
    "tagRules"; TagRuleName id ].

(** A component is usable in a path when it is non-empty and holds no
    slash; a tuple is valid when its five components are. *)
Fixpoint noSlash (s : string) : bool :=
  match s with
  | EmptyString => true
  | String c s' => negb (Ascii.eqb c slash) && noSlash s'
  end.

Definition validComponent (s : string) : bool :=
  negb (String.eqb s "") && noSlash s.

Definition validId (id : LogzSubAccountTagRuleId) : bool :=
  validComponent (SubscriptionId id) && validComponent (ResourceGroup id) &&
  validComponent (MonitorName id) && validComponent (AccountName id) &&
  validComponent (TagRuleName id).

Definition nonEmptyComponents (id : LogzSubAccountTagRuleId) : bool :=
  negb (String.eqb (SubscriptionId id) "") && negb (String.eqb (ResourceGroup id) "") &&
  negb (String.eqb (MonitorName id) "") && negb (String.eqb (AccountName id) "") &&
  negb (String.eqb (TagRuleName id) "").

(** [strings.ToUpper] on the ASCII range, byte by byte. *)
Definition upperAscii (c : ascii) : ascii :=
  let n := nat_of_ascii c in
  if (97 <=? n)%nat && (n <=? 122)%nat then ascii_of_nat (n - 32) else c.

Fixpoint ToUpper (s : string) : string :=
  match s with
  | EmptyString => EmptyString
  | String c s' => String (upperAscii c) (ToUpper s')
  end.

Definition isError {A} (r : A + error) : bool :=
  match r with inl _ => false | inr _ => true end.

(** The table of TestLogzSubAccountTagRuleID: input, whether an error is
    expected, and the expected identifier. *)
Record testCase : Type := mkTestCase {
  Input : string;
  Error : bool;
  Expected : option LogzSubAccountTagRuleId
}.

Definition testData : list testCase :=
  [ mkTestCase "" true None;
    mkTestCase "/" true None;
    mkTestCase "/subscriptions/" true None;
    mkTestCase "/subscriptions/12345678-1234-9876-4563-123456789012/" true None;
    mkTestCase "/subscriptions/12345678-1234-9876-4563-123456789012/resourceGroups/" true None;
    mkTestCase "/subscriptions/12345678-1234-9876-4563-123456789012/resourceGroups/resourceGroup1/providers/Microsoft.Logz/" true None;
    mkTestCase "/subscriptions/12345678-1234-9876-4563-123456789012/resourceGroups/resourceGroup1/providers/Microsoft.Logz/monitors/" true None;
    mkTestCase "/subscriptions/12345678-1234-9876-4563-123456789012/resourceGroups/resourceGroup1/providers/Microsoft.Logz/monitors/monitor1/" true None;
    mkTestCase "/subscriptions/12345678-1234-9876-4563-123456789012/resourceGroups/resourceGroup1/providers/Microsoft.Logz/monitors/monitor1/accounts/" true None;
    mkTestCase "/subscriptions/12345678-1234-9876-4563-123456789012/resourceGroups/resourceGroup1/providers/Microsoft.Logz/monitors/monitor1/accounts/subAccount1/" true None;
    mkTestCase "/subscriptions/12345678-1234-9876-4563-123456789012/resourceGroups/resourceGroup1/providers/Microsoft.Logz/monitors/monitor1/accounts/subAccount1/tagRules/" true None;
    mkTestCase "/subscriptions/12345678-1234-9876-4563-123456789012/resourceGroups/resourceGroup1/providers/Microsoft.Logz/monitors/monitor1/accounts/subAccount1/tagRules/ruleSet1" false
      (Some (mkLogzSubAccountTagRuleId "12345678-1234-9876-4563-123456789012"
               "resourceGroup1" "monitor1" "subAccount1" "ruleSet1"));
    mkTestCase "/SUBSCRIPTIONS/12345678-1234-9876-4563-123456789012/RESOURCEGROUPS/RESOURCEGROUP1/PROVIDERS/MICROSOFT.LOGZ/MONITORS/MONITOR1/ACCOUNTS/SUBACCOUNT1/TAGRULES/RULESET1" true None ].

(** The body of the test loop for one row: [true] when the row passes. *)
Definition testCasePasses (v : testCase) : bool :=
  match LogzSubAccountTagRuleID (Input v) with
  | inr _ => Error v
  | inl actual =>
      if Error v then false
      else match Expected v with
           | Some expected =>
               String.eqb (SubscriptionId actual) (SubscriptionId expected) &&
               String.eqb (ResourceGroup actual) (ResourceGroup expected) &&
               String.eqb (MonitorName actual) (MonitorName expected) &&
               String.eqb (AccountName actual) (AccountName expected) &&
               String.eqb (TagRuleName actual) (TagRuleName expected)
           | None => false
           end
  end.

Definition exampleId : LogzSubAccountTagRuleId :=
  NewLogzSubAccountTagRuleID "12345678-1234-9876-4563-123456789012"
    "resourceGroup1" "monitor1" "subAccount1" "ruleSet1".

Definition exampleString : string :=
  "/subscriptions/12345678-1234-9876-4563-123456789012/resourceGroups/resourceGroup1/providers/Microsoft.Logz/monitors/monitor1/accounts/subAccount1/tagRules/ruleSet1".

End Logz.

(** ** The generated list client of package [configurations] *)

Module Configurations.

(** A request as the preparers describe it. *)
Record Request : Type := mkRequest {
  ContentType : string;
  Method : string;
  BaseURL : string;
  Path : string;
  QueryParameters : gmap string string
}.

(** What the client reads off a parsed [url.URL]: [uri.Path] and
    [uri.Query()]. *)
Record url_URL : Type := mk_url_URL {
  URL_Path : string;
  URL_Query : gmap string (list string)
}.

(** The requests issued so far, oldest first. *)
Definition Log : Type := list Request.

(** [autorest.Client]: sending a request yields a response or an error;
    the remote side may answer according to everything it was sent
    before. *)
Record autorest_Client : Type := mk_autorest_Client {
  Send : Log -> Request -> option http_Response * option error
}.

Record ConfigurationsClient : Type := mkConfigurationsClient {
  Client : autorest_Client;
  baseUri : string
}.

(** The declarations of the package that live in its other files: the
    server identifier with its [ID()] method, the item model, the
    predicate with [Matches], and the API version constant. *)
Class Package : Type := {
  ServerId : Type;
  ServerId_ID : ServerId -> string;
  ServerConfiguration : Type;
  ServerConfigurationPredicate : Type;
  Matches : ServerConfigurationPredicate -> ServerConfiguration -> bool;
  emptyPredicate : ServerConfigurationPredicate;
  defaultApiVersion : string
}.

Section Client.
Context `{Package}.

(** The local [page] struct of the responder. *)
Record page : Type := mkPage {
  Values : list ServerConfiguration;
  NextLink : option string
}.

(** go-autorest and net/url, as used by this client:
    [Prepare] of the preparer built from a request description,
    [autorest.Respond] with the decorators of the responder (status
    must be 200, body unmarshalled as JSON into a [page], body closed),
    [autorest.Encode] and [url.Parse]. *)
Class Libraries : Type := {
  autorest_Prepare : Request -> option error;
  autorest_Respond : option http_Response -> page * option error;
  autorest_Encode : string -> string -> string;
  url_Parse : string -> url_URL * option error
}.

Context `{Libraries}.

(** The function literal stored in [nextPageFunc]; it captures the
    client [c]. *)
Inductive nextPageFn : Type :=
| nextPageClosure (c : ConfigurationsClient).

Record ListByServerResponse : Type := mkListByServerResponse {
  HttpResponse : option http_Response;
  Model : option (list ServerConfiguration);
  nextLink : option string;
  nextPageFunc : option nextPageFn
}.

Record ListByServerCompleteResult : Type := mkListByServerCompleteResult {
  Items : list ServerConfiguration
}.

Definition zeroResponse : ListByServerResponse :=
  {| HttpResponse := None; Model := None; nextLink := None; nextPageFunc := None |}.

Definition zeroCompleteResult : ListByServerCompleteResult := {| Items := [] |}.

Definition packageType : string := "configurations.ConfigurationsClient".

(** [c.Client.Send(req, ...)]: the request goes on the log. *)
Definition send (c : ConfigurationsClient) (req : option Request)
    : M Log (option http_Response * option error) :=
  match req with
  | Some req => fun log => Done (Send (Client c) log req) (log ++ [req])
  | None => panic
  end.

Definition HasMore (r : ListByServerResponse) : bool :=
  match nextLink r with Some _ => true | None => false end.

Definition preparerForListByServer (c : ConfigurationsClient) (id : ServerId)
    : option Request * option error :=
  let queryParameters : gmap string string :=
    {[ "api-version" := defaultApiVersion ]} in
  let req :=
    {| ContentType := "application/json; charset=utf-8";
       Method := "GET";
       BaseURL := baseUri c;
       Path := ServerId_ID id +:+ "/configurations";
       QueryParameters := queryParameters |} in
  (Some req, autorest_Prepare req).

Definition preparerForListByServerWithNextLink
    (c : ConfigurationsClient) (nextLink : string)
    : option Request * option error :=
  let '(uri, err) := url_Parse nextLink in
  match err with
  | Some err =>
      (None, Some (Errorf "parsing nextLink %q: %+v" [ArgString nextLink; ArgError err]))
  | None =>
      let queryParameters : gmap string string :=
        omap (fun v : list string =>
                match v with
                | [] => None
                | val :: _ => Some (autorest_Encode "query" val)
                end) (URL_Query uri) in
      let req :=
        {| ContentType := "application/json; charset=utf-8";
           Method := "GET";
           BaseURL := baseUri c;
           Path := URL_Path uri;
           QueryParameters := queryParameters |} in
      (Some req, autorest_Prepare req)
  end.

Definition responderForListByServer
    (c : ConfigurationsClient) (resp : option http_Response)
    : ListByServerResponse * option error :=
  let '(respObj, err) := autorest_Respond resp in
  ({| HttpResponse := resp;
      Model := Some (Values respObj);
      nextLink := NextLink respObj;
      nextPageFunc :=
        match NextLink respObj with
        | Some _ => Some (nextPageClosure c)
        | None => None
        end |}, err).

(** Sending a prepared request and responding to it: the part that
    [ListByServer] and the next-page function literal have in common. *)
Definition sendAndRespond (c : ConfigurationsClient)
    (prepared : option Request * option error)
    : M Log (ListByServerResponse * option error) :=
  let '(req, err) := prepared in
  match err with
  | Some err =>
      ret (zeroResponse,
           Some (NewErrorWithError err packageType "ListByServer" None
                   "Failure preparing request"))
  | None =>
      let* (httpResponse, err) := send c req in
      match err with
      | Some err =>
          ret ({| HttpResponse := httpResponse; Model := None;
                  nextLink := None; nextPageFunc := None |},
               Some (NewErrorWithError err packageType "ListByServer"
                       httpResponse "Failure sending request"))
      | None =>
          let '(result, err) := responderForListByServer c httpResponse in
          match err with
          | Some err =>
              ret (result,
                   Some (NewErrorWithError err packageType "ListByServer"
                           (HttpResponse result) "Failure responding to request"))
          | None => ret (result, None)
          end
      end
  end.

Definition ListByServer (c : ConfigurationsClient) (id : ServerId)
    : M Log (ListByServerResponse * option error) :=
  sendAndRespond c (preparerForListByServer c id).

(** Calling a stored next-page function; calling a nil one panics. *)
Definition callNextPageFunc (f : option nextPageFn) (nextLink : string)
    : M Log (ListByServerResponse * option error) :=
  match f with
  | Some (nextPageClosure c) =>
      sendAndRespond c (preparerForListByServerWithNextLink c nextLink)
  | None => panic
  end.

Definition LoadMore (r : ListByServerResponse)
    : M Log (ListByServerResponse * option error) :=
  if negb (HasMore r) then
    ret (zeroResponse, Some (Errorf "no more pages returned" []))
  else
    match nextLink r with
    | Some link => callNextPageFunc (nextPageFunc r) link
    | None => panic
    end.

(** The two [for _, v := range *page.Model] loops. *)
Definition appendMatching (predicate : ServerConfigurationPredicate)
    (page : ListByServerResponse) (items : list ServerConfiguration)
    : list ServerConfiguration :=
  match Model page with
  | Some model =>
      fold_left (fun items v =>
                   if Matches predicate v then items ++ [v] else items)
                model items
  | None => items
  end.

(** [for page.HasMore() { ... }], with a budget of [fuel] iterations. *)
Fixpoint loadRemaining (fuel : nat) (predicate : ServerConfigurationPredicate)
    (page : ListByServerResponse) (items : list ServerConfiguration)
    : M Log (ListByServerCompleteResult * option error) :=
  if HasMore page then
    match fuel with
    | O => fun _ => OutOfFuel
    | S fuel =>
        let* (page, err) := LoadMore page in
        match err with
        | Some err =>
            ret (zeroCompleteResult,
                 Some (Errorf "loading the next page: %+v" [ArgError err]))
        | None =>
            loadRemaining fuel predicate page (appendMatching predicate page items)
        end
    end
  else ret ({| Items := items |}, None).

Definition ListByServerCompleteMatchingPredicate (fuel : nat)
    (c : ConfigurationsClient) (id : ServerId)
    (predicate : ServerConfigurationPredicate)
    : M Log (ListByServerCompleteResult * option error) :=
  let items : list ServerConfiguration := [] in
  let* (page, err) := ListByServer c id in
  match err with
  | Some err =>
      ret (zeroCompleteResult,
           Some (Errorf "loading the initial page: %+v" [ArgError err]))
  | None =>
      loadRemaining fuel predicate page (appendMatching predicate page items)
  end.

Definition ListByServerComplete (fuel : nat)
    (c : ConfigurationsClient) (id : ServerId)
    : M Log (ListByServerCompleteResult * option error) :=
  ListByServerCompleteMatchingPredicate fuel c id emptyPredicate.

(** *** Draining first, filtering afterwards

    The reference the specification compares the completion with: all
    pages are fetched and kept, in the order received; their items are
    concatenated and only then filtered. *)

Definition pageItems (page : ListByServerResponse) : list ServerConfiguration :=
  match Model page with Some model => model | None => [] end.

Fixpoint drainRemaining (fuel : nat) (page : ListByServerResponse)
    (pages : list ListByServerResponse)
    : M Log (list ListByServerResponse * option error) :=
  if HasMore page then
    match fuel with
    | O => fun _ => OutOfFuel
    | S fuel =>
        let* (page, err) := LoadMore page in
        match err with
        | Some err =>
            ret (pages, Some (Errorf "loading the next page: %+v" [ArgError err]))
        | None => drainRemaining fuel page (pages ++ [page])
        end
    end
  else ret (pages, None).

Definition drainPages (fuel : nat) (c : ConfigurationsClient) (id : ServerId)
    : M Log (list ListByServerResponse * option error) :=
  let* (page, err) := ListByServer c id in
  match err with
  | Some err =>
      ret ([], Some (Errorf "loading the initial page: %+v" [ArgError err]))
  | None => drainRemaining fuel page [page]
  end.

Definition filterDrained (predicate : ServerConfigurationPredicate)
    (drained : list ListByServerResponse * option error)
    : ListByServerCompleteResult * option error :=
  match drained with
  | (_, Some err) => (zeroCompleteResult, Some err)
  | (pages, None) =>
      ({| Items := List.filter (Matches predicate)
                     (concat (map pageItems pages)) |}, None)
  end.

Definition drainThenFilter (fuel : nat) (c : ConfigurationsClient)
    (id : ServerId) (predicate : ServerConfigurationPredicate)
    : M Log (ListByServerCompleteResult * option error) :=
  fun log => mapOutcome (filterDrained predicate) (drainPages fuel c id log).

(** *** Page sequences

    The remote side serves the pages [ps], one per request, starting
    with the answer to [req]: every page but the last carries a
    continuation token, and the request prepared from that token is
    answered with the next page; the last page carries none. *)
Inductive ServesPages (c : ConfigurationsClient)
    : Log -> Request -> list page -> Log -> Prop :=
| ServesLast log req resp p :
    Send (Client c) log req = (resp, None) ->
    autorest_Respond resp = (p, None) ->
    NextLink p = None ->
    ServesPages c log req [p] (log ++ [req])
| ServesNext log req resp p link req' ps log' :
    Send (Client c) log req = (resp, None) ->
    autorest_Respond resp = (p, None) ->
    NextLink p = Some link ->
    preparerForListByServerWithNextLink c link = (Some req', None) ->
    ServesPages c (log ++ [req]) req' ps log' ->
    ServesPages c log req (p :: ps) log'.

(** Where a fetch failed: on the initial request or on a follow-up. *)
Inductive position : Type := InitialPage | NextPage.

Definition failureContext (pos : position) : string :=
  match pos with
  | InitialPage => "loading the initial page: %+v"
  | NextPage => "loading the next page: %+v"
  end.

(** Starting from [page], [n] more pages load and the one after them
    fails with [err]. *)
Inductive LoadsUntilFailure
    : nat -> ListByServerResponse -> Log -> error -> Log -> Prop :=
| FailNow page log resp err log' :
    HasMore page = true ->
    LoadMore page log = Done (resp, Some err) log' ->
    LoadsUntilFailure 0 page log err log'
| FailLater n page log page' log1 err log' :
    HasMore page = true ->
    LoadMore page log = Done (page', None) log1 ->
    LoadsUntilFailure n page' log1 err log' ->
    LoadsUntilFailure (S n) page log err log'.

(** Listing the configurations of [id] fails with [err] at position
    [pos], after [k] pages were fetched. *)
Inductive FetchFails (c : ConfigurationsClient) (id : ServerId)
    : Log -> position -> nat -> error -> Log -> Prop :=
| FailsInitial log resp err log' :
    ListByServer c id log = Done (resp, Some err) log' ->
    FetchFails c id log InitialPage 0 err log'
| FailsNext log page log1 n err log' :
    ListByServer c id log = Done (page, None) log1 ->
    LoadsUntilFailure n page log1 err log' ->
    FetchFails c id log NextPage (S n) err log'.

End Client.

(** *** A small remote side, for examples

    Items are numbers, a predicate is either empty or asks for one
    number; three pages [1; 2], [3] and [4; 5] are linked by the tokens
    "next2" and "next3". *)
Module Example.

#[local] Instance package : Package := {|
  ServerId := string;
  ServerId_ID := fun id => id;
  ServerConfiguration := nat;
  ServerConfigurationPredicate := option nat;
  Matches := fun p v => match p with Some n => Nat.eqb n v | None => true end;
  emptyPredicate := None;
  defaultApiVersion := "2017-12-01"
|}.

Definition decode (body : string) : page * option error :=
  if String.eqb body "page1" then (mkPage [1; 2] (Some "next2"), None)
  else if String.eqb body "page2" then (mkPage [3] (Some "next3"), None)
  else if String.eqb body "page3" then (mkPage [4; 5] None, None)
  else (mkPage [] None, Some (upstream "invalid character"))%nat.

#[local] Instance libraries : Libraries := {|
  autorest_Prepare := fun _ => None;
  autorest_Respond := fun resp =>
    match resp with
    | Some r =>
        if Nat.eqb (StatusCode r) 200 then decode (Body r)
        else (mkPage [] None, Some (upstream "unexpected status"))
    | None => (mkPage [] None, None)
    end;
  autorest_Encode := fun _ v => v;
  url_Parse := fun link => (mk_url_URL link ∅, None)
|}.

(** Answers by path; [broken] is the path that fails to send. *)
Definition serve (broken : string) (log : Log) (req : Request)
    : option http_Response * option error :=
  if String.eqb (Path req) broken then (None, Some (upstream "connection reset"))
  else if String.eqb (Path req) "/servers/s1/configurations" then
    (Some (mk_http_Response 200 "page1"), None)
  else if String.eqb (Path req) "next2" then
    (Some (mk_http_Response 200 "page2"), None)
  else if String.eqb (Path req) "next3" then
    (Some (mk_http_Response 200 "page3"), None)
  else (Some (mk_http_Response 404 ""), None).

Definition client (broken : string) : ConfigurationsClient :=
  {| Client := {| Send := serve broken |};
     baseUri := "https://management.azure.com" |}.

Definition serverId : ServerId := "/servers/s1".

Definition lastPage : ListByServerResponse :=
  {| HttpResponse := Some (mk_http_Response 200 "page3");
     Model := Some [4; 5]%nat;
     nextLink := None;
     nextPageFunc := None |}.

End Example.

End Configurations.

(** ** The Spring Cloud app / Redis association resource *)

Module SpringCloud.

(** Identifiers of package [springcloud/parse]. *)
Record SpringCloudAppId : Type := mkSpringCloudAppId {
  App_SubscriptionId : string;
  App_ResourceGroup : string;
  App_SpringName : string;
  App_AppName : string
}.

Record SpringCloudAppAssociationId : Type := mkSpringCloudAppAssociationId {
  SubscriptionId : string;
  ResourceGroup : string;
  SpringName : string;
  AppName : string;
  BindingName : string
}.

Definition NewSpringCloudAppID (subscriptionId resourceGroup springName appName : string)
    : SpringCloudAppId :=
  mkSpringCloudAppId subscriptionId resourceGroup springName appName.

Definition NewSpringCloudAppAssociationID
    (subscriptionId resourceGroup springName appName bindingName : string)
    : SpringCloudAppAssociationId :=
  mkSpringCloudAppAssociationId subscriptionId resourceGroup springName appName bindingName.

(** Values held by the schema-typed resource data and by
    [map[string]interface{}]. *)
Inductive value : Type :=
| VString (s : string)
| VBool (b : bool)
| VNil.

Inductive valueType : Type := TypeString | TypeBool.

(** The [Schema] of [resourceSpringCloudAppRedisAssociation]: the type of
    every attribute. *)
Definition Schema : gmap string valueType :=
  {[ "name" := TypeString;
     "spring_cloud_app_id" := TypeString;
     "redis_cache_id" := TypeString;
     "redis_access_key" := TypeString;
     "ssl_enabled" := TypeBool ]}.

Definition zeroValue (t : valueType) : value :=
  match t with TypeString => VString "" | TypeBool => VBool false end.

(** [*pluginsdk.ResourceData]. *)
Record ResourceData : Type := mkResourceData {
  Id : string;
  IsNewResource : bool;
  fields : gmap string value
}.

(** The management-plane models. *)
Record BindingResourceProperties : Type := mkBindingResourceProperties {
  ResourceID : option string;
  Key : option string;
  BindingParameters : gmap string value
}.

Record BindingResource : Type := mkBindingResource {
  Response : option http_Response;
  Properties : option BindingResourceProperties
}.

Record Future : Type := mkFuture { PollingURL : string }.

(** The calls made on the bindings client, oldest first. *)
Inductive Call : Type :=
| CallGet (resourceGroup springName appName bindingName : string)
| CallCreateOrUpdate (resourceGroup springName appName bindingName : string)
    (bindingResource : BindingResource)
| CallDelete (resourceGroup springName appName bindingName : string)
| CallWaitForCompletionRef (future : Future).

(** [appplatform.BindingsClient] and the futures it hands out: every
    answer may depend on the calls made before. *)
Record BindingsClient : Type := mkBindingsClient {
  Get : list Call -> string -> string -> string -> string
        -> BindingResource * option error;
  CreateOrUpdate : list Call -> string -> string -> string -> string
        -> BindingResource -> Future * option error;
  Delete : list Call -> string -> string -> string -> string
        -> Future * option error;
  WaitForCompletionRef : list Call -> Future -> option error
}.

(** Functions of the repository that the handlers call and that live in
    other files: the identifier parsers and formatters of
    [springcloud/parse] and [utils.ResponseWasNotFound]. *)
Class Helpers : Type := {
  SpringCloudAppID : string -> option SpringCloudAppId * option error;
  SpringCloudAppAssociationID : string -> option SpringCloudAppAssociationId * option error;
  AppId_ID : SpringCloudAppId -> string;
  AssociationId_ID : SpringCloudAppAssociationId -> string;
  AssociationId_String : SpringCloudAppAssociationId -> string;
  ResponseWasNotFound : option http_Response -> bool
}.

(** The store a handler works on: the resource data it was handed by
    reference and the calls made so far. *)
Record Store : Type := mkStore {
  d : ResourceData;
  calls : list Call
}.

Section Handlers.
Context `{Helpers}.
Variable client : BindingsClient.

Definition springCloudAppRedisAssociationKeySSL : string := "useSsl".

(** *** Resource data *)

(** [d.Get(key)] before the type assertion: the stored value, or the zero
    value of the attribute's type when nothing is stored. *)
Definition valueOf (data : ResourceData) (key : string) : value :=
  match fields data !! key with
  | Some v => v
  | None => match Schema !! key with
            | Some t => zeroValue t
            | None => VNil
            end
  end.

Definition d_Get (key : string) : M Store value :=
  fun st => Done (valueOf (d st) key) st.

Definition d_Set (key : string) (v : value) : M Store unit :=
  fun st =>
    Done tt {| d := {| Id := Id (d st);
                       IsNewResource := IsNewResource (d st);
                       fields := <[key := v]> (fields (d st)) |};
               calls := calls st |}.

Definition d_Id : M Store string := fun st => Done (Id (d st)) st.

Definition d_SetId (id : string) : M Store unit :=
  fun st =>
    Done tt {| d := {| Id := id;
                       IsNewResource := IsNewResource (d st);
                       fields := fields (d st) |};
               calls := calls st |}.

Definition d_IsNewResource : M Store bool :=
  fun st => Done (IsNewResource (d st)) st.

(** Type assertions [v.(string)] and [v.(bool)]. *)
Definition asString (v : value) : M Store string :=
  match v with VString s => ret s | _ => panic end.

Definition asBool (v : value) : M Store bool :=
  match v with VBool b => ret b | _ => panic end.

(** [utils.String] applied to a value, and a [*string] handed to
    [d.Set]. *)
Definition ofStringPtr (p : option string) : value :=
  match p with Some s => VString s | None => VNil end.

(** *** Calls on the client *)

Definition client_Get (resourceGroup springName appName bindingName : string)
    : M Store (BindingResource * option error) :=
  fun st =>
    Done (Get client (calls st) resourceGroup springName appName bindingName)
         {| d := d st;
            calls := calls st ++ [CallGet resourceGroup springName appName bindingName] |}.

Definition client_CreateOrUpdate
    (resourceGroup springName appName bindingName : string)
    (bindingResource : BindingResource)
    : M Store (Future * option error) :=
  fun st =>
    Done (CreateOrUpdate client (calls st) resourceGroup springName appName
            bindingName bindingResource)
         {| d := d st;
            calls := calls st ++ [CallCreateOrUpdate resourceGroup springName
                                    appName bindingName bindingResource] |}.

Definition client_Delete (resourceGroup springName appName bindingName : string)
    : M Store (Future * option error) :=
  fun st =>
    Done (Delete client (calls st) resourceGroup springName appName bindingName)
         {| d := d st;
            calls := calls st ++ [CallDelete resourceGroup springName appName bindingName] |}.

Definition future_WaitForCompletionRef (future : Future) : M Store (option error) :=
  fun st =>
    Done (WaitForCompletionRef client (calls st) future)
         {| d := d st;
            calls := calls st ++ [CallWaitForCompletionRef future] |}.

(** [strings.EqualFold] against an ASCII word: bytes compared after
    upper-casing the ASCII letters. *)
Definition EqualFold (s t : string) : bool :=
  String.eqb (Logz.ToUpper s) (Logz.ToUpper t).

(** *** The handlers *)

Definition resourceSpringCloudAppRedisAssociationRead : M Store (option error) :=
  let* rawId := d_Id in
  let '(id, err) := SpringCloudAppAssociationID rawId in
  match err with
  | Some err => ret (Some err)
  | None =>
  match id with
  | None => panic
  | Some id =>
      let* (resp, err) := client_Get (ResourceGroup id) (SpringName id)
                            (AppName id) (BindingName id) in
      match err with
      | Some err =>
          if ResponseWasNotFound (Response resp) then
            let* _ := d_SetId "" in
            ret None
          else
            ret (Some (Errorf "reading %s: %+v"
                         [ArgString (AssociationId_String id); ArgError err]))
      | None =>
          let* _ := d_Set "name" (VString (BindingName id)) in
          let* _ := d_Set "spring_cloud_app_id"
                      (VString (AppId_ID (NewSpringCloudAppID (SubscriptionId id)
                                  (ResourceGroup id) (SpringName id) (AppName id)))) in
          let* _ :=
            match Properties resp with
            | Some props =>
                let* _ := d_Set "redis_cache_id" (ofStringPtr (ResourceID props)) in
                let* enableSSL :=
                  match BindingParameters props !! springCloudAppRedisAssociationKeySSL with
                  | Some v => asString v
                  | None => ret "false"
                  end in
                d_Set "ssl_enabled" (VBool (EqualFold enableSSL "true"))
            | None => ret tt
            end in
          ret None
      end
  end
  end.

(** The existence probe of a create: [Some err] when the handler
    returns [err] from inside [if d.IsNewResource() { ... }]. *)
Definition probeExisting (id : SpringCloudAppAssociationId) : M Store (option error) :=
  let* (existing, err) := client_Get (ResourceGroup id) (SpringName id)
                            (AppName id) (BindingName id) in
  let failedCheck :=
    match err with
    | Some err =>
        if negb (ResponseWasNotFound (Response existing)) then
          Some (Errorf "checking for present of existing %s: %+v"
                  [ArgString (AssociationId_String id); ArgError err])
        else None
    | None => None
    end in
  match failedCheck with
  | Some err => ret (Some err)
  | None =>
      if negb (ResponseWasNotFound (Response existing)) then
        ret (Some (ImportAsExistsError "azurerm_spring_cloud_app_redis_association"
                     (AssociationId_ID id)))
      else ret None
  end.

Definition resourceSpringCloudAppRedisAssociationCreateUpdate : M Store (option error) :=
  let* rawAppId := (let* v := d_Get "spring_cloud_app_id" in asString v) in
  let '(appId, err) := SpringCloudAppID rawAppId in
  match err with
  | Some err => ret (Some err)
  | None =>
  match appId with
  | None => panic
  | Some appId =>
      let* name := (let* v := d_Get "name" in asString v) in
      let id := NewSpringCloudAppAssociationID (App_SubscriptionId appId)
                  (App_ResourceGroup appId) (App_SpringName appId)
                  (App_AppName appId) name in
      let* isNew := d_IsNewResource in
      let* probed := (if isNew then probeExisting id else ret None) in
      match probed with
      | Some err => ret (Some err)
      | None =>
          let* sslEnabled := (let* v := d_Get "ssl_enabled" in asBool v) in
          let* redisAccessKey := (let* v := d_Get "redis_access_key" in asString v) in
          let* redisCacheId := (let* v := d_Get "redis_cache_id" in asString v) in
          let bindingResource :=
            {| Response := None;
               Properties := Some
                 {| BindingParameters :=
                      {[ springCloudAppRedisAssociationKeySSL := VBool sslEnabled ]};
                    Key := Some redisAccessKey;
                    ResourceID := Some redisCacheId |} |} in
          let* (future, err) := client_CreateOrUpdate (ResourceGroup id)
                                  (SpringName id) (AppName id) (BindingName id)
                                  bindingResource in
          match err with
          | Some err =>
              ret (Some (Errorf "creating %s: %+v"
                           [ArgString (AssociationId_String id); ArgError err]))
          | None =>
              let* err := future_WaitForCompletionRef future in
              match err with
              | Some err =>
                  ret (Some (Errorf "waiting for creation/update of %q: %+v"
                               [ArgString (AssociationId_String id); ArgError err]))
              | None =>
                  let* _ := d_SetId (AssociationId_ID id) in
                  resourceSpringCloudAppRedisAssociationRead
              end
          end
      end
  end
  end.

Definition resourceSpringCloudAppRedisAssociationDelete : M Store (option error) :=
  let* rawId := d_Id in
  let '(id, err) := SpringCloudAppAssociationID rawId in
  match err with
  | Some err => ret (Some err)
  | None =>
  match id with
  | None => panic
  | Some id =>
      let* (future, err) := client_Delete (ResourceGroup id) (SpringName id)
                              (AppName id) (BindingName id) in
      match err with
      | Some err =>
          ret (Some (Errorf "deleting %s: %+v"
                       [ArgString (AssociationId_String id); ArgError err]))
      | None =>
          let* err := future_WaitForCompletionRef future in
          match err with
          | Some err =>
              ret (Some (Errorf "waiting for deletion of %q: %+v"
                           [ArgString (AssociationId_String id); ArgError err]))
          | None => ret None
          end
      end
  end
  end.

End Handlers.

(** *** Schema-typed resource data

    The SDK only hands out resource data whose stored values have the
    type the schema gives their attribute. *)

Definition hasType (v : value) (t : valueType) : bool :=
  match v, t with
  | VString _, TypeString => true
  | VBool _, TypeBool => true
  | _, _ => false
  end.

Definition typed (data : ResourceData) (key : string) (t : valueType) : bool :=
  match fields data !! key with
  | Some v => hasType v t
  | None => true
  end.

Definition conforms (data : ResourceData) : bool :=
  typed data "name" TypeString &&
  typed data "spring_cloud_app_id" TypeString &&
  typed data "redis_cache_id" TypeString &&
  typed data "redis_access_key" TypeString &&
  typed data "ssl_enabled" TypeBool.

Definition stringOf (data : ResourceData) (key : string) : string :=
  match valueOf data key with VString s => s | _ => "" end.

Definition boolOf (data : ResourceData) (key : string) : bool :=
  match valueOf data key with VBool b => b | _ => false end.

(** The response an SDK error carries, if any. *)
Definition errorResponse (err : error) : option http_Response :=
  match err with
  | NewErrorWithError _ _ _ resp _ => resp
  | _ => None
  end.

(** The store after one more call. *)
Definition called (st : Store) (call : Call) : Store :=
  {| d := d st; calls := calls st ++ [call] |}.

(** The store after [d.SetId]. *)
Definition withId (st : Store) (id : string) : Store :=
  {| d := {| Id := id; IsNewResource := IsNewResource (d st); fields := fields (d st) |};
     calls := calls st |}.

(** The binding resource a create or update sends. *)
Definition bindingResourceOf (data : ResourceData) : BindingResource :=
  {| Response := None;
     Properties := Some
       {| BindingParameters := {[ "useSsl" := VBool (boolOf data "ssl_enabled") ]};
          Key := Some (stringOf data "redis_access_key");
          ResourceID := Some (stringOf data "redis_cache_id") |} |}.

(** *** A small remote side, for examples *)
Module Example.

Definition keys : list string :=
  [""; "subscriptions"; "resourceGroups"; "providers"; "Microsoft.AppPlatform";
   "Spring"; "apps"].

Definition parseApp (input : string) : option SpringCloudAppId * option error :=
  match Logz.segments input with
  | [lead; k1; sub; k2; rg; k3; ns; k4; spring; k5; app] =>
      if forallb (fun kv => String.eqb kv.1 kv.2)
           (zip [lead; k1; k2; k3; ns; k4; k5] keys)
      then (Some (mkSpringCloudAppId sub rg spring app), None)
      else (None, Some (upstream "ID was missing an element"))
  | _ => (None, Some (upstream "ID was missing an element"))
  end.

Definition parseAssociation (input : string)
    : option SpringCloudAppAssociationId * option error :=
  match Logz.segments input with
  | [lead; k1; sub; k2; rg; k3; ns; k4; spring; k5; app; k6; binding] =>
      if forallb (fun kv => String.eqb kv.1 kv.2)
           (zip [lead; k1; k2; k3; ns; k4; k5; k6] (keys ++ ["bindings"]))
      then (Some (mkSpringCloudAppAssociationId sub rg spring app binding), None)
      else (None, Some (upstream "ID was missing an element"))
  | _ => (None, Some (upstream "ID was missing an element"))
  end.

Definition formatApp (id : SpringCloudAppId) : string :=
  "/subscriptions/" +:+ App_SubscriptionId id +:+
  "/resourceGroups/" +:+ App_ResourceGroup id +:+
  "/providers/Microsoft.AppPlatform/Spring/" +:+ App_SpringName id +:+
  "/apps/" +:+ App_AppName id.

Definition formatAssociation (id : SpringCloudAppAssociationId) : string :=
  formatApp (NewSpringCloudAppID (SubscriptionId id) (ResourceGroup id)
               (SpringName id) (AppName id))
  +:+ "/bindings/" +:+ BindingName id.

#[local] Instance helpers : Helpers := {|
  SpringCloudAppID := parseApp;
  SpringCloudAppAssociationID := parseAssociation;
  AppId_ID := formatApp;
  AssociationId_ID := formatAssociation;
  AssociationId_String := fun id => "Binding: " +:+ BindingName id;
  ResponseWasNotFound := fun resp =>
    match resp with
    | Some r => Nat.eqb (StatusCode r) 404
    | None => false
    end
|}.

Definition notFound : error :=
  NewErrorWithError (upstream "ResourceNotFound") "appplatform.BindingsClient"
    "Get" (Some (mk_http_Response 404 "")) "Failure responding to request".

Definition serverError : error :=
  NewErrorWithError (upstream "InternalServerError") "appplatform.BindingsClient"
    "Get" (Some (mk_http_Response 500 "")) "Failure responding to request".

Definition deleteNotFound : error :=
  NewErrorWithError (upstream "ResourceNotFound") "appplatform.BindingsClient"
    "Delete" (Some (mk_http_Response 404 "")) "Failure sending request".

Definition pollNotFound : error :=
  NewErrorWithError (upstream "ResourceNotFound") "azure.Future"
    "WaitForCompletionRef" (Some (mk_http_Response 404 "")) "polling failed".

Definition stored : BindingResource :=
  {| Response := Some (mk_http_Response 200 "");
     Properties := Some
       {| ResourceID := Some "/subscriptions/sub1/resourceGroups/rg1/providers/Microsoft.Cache/Redis/cache1";
          Key := None;
          BindingParameters := {[ "useSsl" := VString "true" ]} |} |}.

(** A remote side on which the binding does not exist until it has been
    created: [Get] answers 404 before the first [CreateOrUpdate]. *)
Definition created (log : list Call) : bool :=
  existsb (fun call => match call with CallCreateOrUpdate _ _ _ _ _ => true | _ => false end) log.

Definition emptyRemote : BindingsClient :=
  {| Get := fun log _ _ _ _ =>
       if created log then (stored, None)
       else ({| Response := Some (mk_http_Response 404 ""); Properties := None |},
             Some notFound);
     CreateOrUpdate := fun _ _ _ _ _ _ => (mkFuture "https://management.azure.com/operations/1", None);
     Delete := fun _ _ _ _ _ => (mkFuture "", Some deleteNotFound);
     WaitForCompletionRef := fun _ _ => None |}.

(** A remote side whose [Get] fails with a server error, and whose
    deletions are accepted but then found to have nothing to delete. *)
Definition failingRemote : BindingsClient :=
  {| Get := fun _ _ _ _ _ =>
       ({| Response := Some (mk_http_Response 500 ""); Properties := None |},
        Some serverError);
     CreateOrUpdate := fun _ _ _ _ _ _ => (mkFuture "https://management.azure.com/operations/1", None);
     Delete := fun _ _ _ _ _ => (mkFuture "https://management.azure.com/operations/2", None);
     WaitForCompletionRef := fun _ _ => Some pollNotFound |}.

(** A remote side on which the binding exists. *)
Definition existingRemote : BindingsClient :=
  {| Get := fun _ _ _ _ _ => (stored, None);
     CreateOrUpdate := fun _ _ _ _ _ _ => (mkFuture "https://management.azure.com/operations/1", None);
     Delete := fun _ _ _ _ _ => (mkFuture "https://management.azure.com/operations/2", None);
     WaitForCompletionRef := fun _ _ => None |}.

Definition appIdString : string :=
  "/subscriptions/sub1/resourceGroups/rg1/providers/Microsoft.AppPlatform/Spring/spring1/apps/app1".

Definition associationIdString : string :=
  "/subscriptions/sub1/resourceGroups/rg1/providers/Microsoft.AppPlatform/Spring/spring1/apps/app1/bindings/redis1".

Definition redis1 : SpringCloudAppAssociationId :=
  mkSpringCloudAppAssociationId "sub1" "rg1" "spring1" "app1" "redis1".

(** The resource data of a planned, not yet created association. *)
Definition planned : Store :=
  {| d := {| Id := "";
             IsNewResource := true;
             fields := {[ "name" := VString "redis1";
                          "spring_cloud_app_id" := VString appIdString;
                          "redis_cache_id" := VString "/subscriptions/sub1/resourceGroups/rg1/providers/Microsoft.Cache/Redis/cache1";
                          "redis_access_key" := VString "key1";
                          "ssl_enabled" := VBool true ]} |};
     calls := [] |}.

(** The resource data of an association tracked in the state. *)
Definition tracked : Store :=
  {| d := {| Id := associationIdString;
             IsNewResource := false;
             fields := fields (d planned) |};
     calls := [] |}.

End Example.

End SpringCloud.

(** ** The Stream Analytics table output resource *)

Module StreamAnalytics.

Record OutputTableResourceModel : Type := mkOutputTableResourceModel {
  Name : string;
  StreamAnalyticsJob : string;
  ResourceGroup : string;
  StorageAccount : string;
  StorageAccountKey : string;
  Table : string;
  PartitionKey : string;
  RowKey : string;
  BatchSize : Z
}.

(** [parse.OutputId]. *)
Record OutputId : Type := mkOutputId {
  Id_SubscriptionId : string;
  Id_ResourceGroup : string;
  Id_StreamingjobName : string;
  Id_Name : string
}.

Definition NewOutputID (subscriptionId resourceGroup streamingjobName name : string)
    : OutputId :=
  mkOutputId subscriptionId resourceGroup streamingjobName name.

(** The models of the Stream Analytics API that [Create] fills in. *)
Record AzureTableOutputDataSourceProperties : Type :=
  mkAzureTableOutputDataSourceProperties {
    DS_AccountName : option string;
    DS_AccountKey : option string;
    DS_Table : option string;
    DS_PartitionKey : option string;
    DS_RowKey : option string;
    DS_BatchSize : option Z
  }.

Record AzureTableOutputDataSource : Type := mkAzureTableOutputDataSource {
  DS_Type : string;
  DS_Properties : option AzureTableOutputDataSourceProperties
}.

Record OutputProperties : Type := mkOutputProperties {
  Datasource : option AzureTableOutputDataSource
}.

Record Output : Type := mkOutput {
  Response : option http_Response;
  Output_Name : option string;
  Output_Properties : option OutputProperties
}.

Definition TypeMicrosoftStorageTable : string := "Microsoft.Storage/Table".

Inductive Call : Type :=
| CallGet (resourceGroup jobName outputName : string)
| CallCreateOrReplace (output : Output) (resourceGroup jobName outputName : string)
    (ifMatch ifNoneMatch : string).

Record OutputsClient : Type := mkOutputsClient {
  Get : list Call -> string -> string -> string -> Output * option error;
  CreateOrReplace : list Call -> Output -> string -> string -> string
        -> string -> string -> Output * option error
}.

(** [sdk.ResourceMetaData] as [Create] uses it: what [Decode] yields, the
    outputs client and the subscription of the account. *)
Record ResourceMetaData : Type := mkResourceMetaData {
  Decode : OutputTableResourceModel * option error;
  OutputsClient_ : OutputsClient;
  Account_SubscriptionId : string
}.

(** Functions of the repository living in other files. *)
Class Helpers : Type := {
  OutputId_ID : OutputId -> string;
  OutputId_String : OutputId -> string;
  ResponseWasNotFound : option http_Response -> bool
}.

(** The identifier recorded by [metadata.SetID] (empty when none was) and
    the calls made so far. *)
Record Store : Type := mkStore {
  ID : string;
  calls : list Call
}.

Section Resource.
Context `{Helpers}.

Definition ResourceType : string := "azurerm_stream_analytics_output_table".

Definition client_Get (client : OutputsClient)
    (resourceGroup jobName outputName : string)
    : M Store (Output * option error) :=
  fun st =>
    Done (Get client (calls st) resourceGroup jobName outputName)
         {| ID := ID st;
            calls := calls st ++ [CallGet resourceGroup jobName outputName] |}.

Definition client_CreateOrReplace (client : OutputsClient) (output : Output)
    (resourceGroup jobName outputName ifMatch ifNoneMatch : string)
    : M Store (Output * option error) :=
  fun st =>
    Done (CreateOrReplace client (calls st) output resourceGroup jobName
            outputName ifMatch ifNoneMatch)
         {| ID := ID st;
            calls := calls st ++ [CallCreateOrReplace output resourceGroup jobName
                                    outputName ifMatch ifNoneMatch] |}.

Definition metadata_SetID (id : OutputId) : M Store unit :=
  fun st => Done tt {| ID := OutputId_ID id; calls := calls st |}.

(** The [Func] of [OutputTableResource.Create]. *)
Definition Create (metadata : ResourceMetaData) : M Store (option error) :=
  let '(model, err) := Decode metadata in
  match err with
  | Some err => ret (Some err)
  | None =>
      let client := OutputsClient_ metadata in
      let subscriptionId := Account_SubscriptionId metadata in
      let id := NewOutputID subscriptionId (ResourceGroup model)
                  (StreamAnalyticsJob model) (Name model) in
      let* (existing, err) := client_Get client (Id_ResourceGroup id)
                                (Id_StreamingjobName id) (Id_Name id) in
      let failedCheck :=
        match err with
        | Some err =>
            if negb (ResponseWasNotFound (Response existing)) then
              Some (Errorf "checking for presence of existing %s: %+v"
                      [ArgString (OutputId_String id); ArgError err])
            else None
        | None => None
        end in
      match failedCheck with
      | Some err => ret (Some err)
      | None =>
          if negb (ResponseWasNotFound (Response existing)) then
            ret (Some (ResourceRequiresImport ResourceType (OutputId_ID id)))
          else
            let props :=
              {| Response := None;
                 Output_Name := Some (Name model);
                 Output_Properties := Some
                   {| Datasource := Some
                        {| DS_Type := TypeMicrosoftStorageTable;
                           DS_Properties := Some
                             {| DS_AccountName := Some (StorageAccount model);
                                DS_AccountKey := Some (StorageAccountKey model);
                                DS_Table := Some (Table model);
                                DS_PartitionKey := Some (PartitionKey model);
                                DS_RowKey := Some (RowKey model);
                                DS_BatchSize := Some (BatchSize model) |} |} |} |} in
            let* (_, err) := client_CreateOrReplace client props
                               (Id_ResourceGroup id) (Id_StreamingjobName id)
                               (Id_Name id) "" "" in
            match err with
            | Some err =>
                ret (Some (Errorf "creating %s: %+v"
                             [ArgString (OutputId_String id); ArgError err]))
            | None =>
                let* _ := metadata_SetID id in
                ret None
            end
      end
  end.

End Resource.

(** The store after one more call. *)
Definition called (st : Store) (call : Call) : Store :=
  {| ID := ID st; calls := calls st ++ [call] |}.

(** The output a create sends. *)
Definition outputOf (model : OutputTableResourceModel) : Output :=
  {| Response := None;
     Output_Name := Some (Name model);
     Output_Properties := Some
       {| Datasource := Some
            {| DS_Type := TypeMicrosoftStorageTable;
               DS_Properties := Some
                 {| DS_AccountName := Some (StorageAccount model);
                    DS_AccountKey := Some (StorageAccountKey model);
                    DS_Table := Some (Table model);
                    DS_PartitionKey := Some (PartitionKey model);
                    DS_RowKey := Some (RowKey model);
                    DS_BatchSize := Some (BatchSize model) |} |} |} |}.

(** *** A small remote side, for examples *)
Module Example.

#[local] Instance helpers : Helpers := {|
  OutputId_ID := fun id =>
    "/subscriptions/" +:+ Id_SubscriptionId id +:+
    "/resourceGroups/" +:+ Id_ResourceGroup id +:+
    "/providers/Microsoft.StreamAnalytics/streamingjobs/" +:+ Id_StreamingjobName id +:+
    "/outputs/" +:+ Id_Name id;
  OutputId_String := fun id => "Output: " +:+ Id_Name id;
  ResponseWasNotFound := fun resp =>
    match resp with
    | Some r => Nat.eqb (StatusCode r) 404
    | None => false
    end
|}.

Definition model : OutputTableResourceModel :=
  {| Name := "output1"; StreamAnalyticsJob := "job1"; ResourceGroup := "rg1";
     StorageAccount := "account1"; StorageAccountKey := "key1"; Table := "table1";
     PartitionKey := "pk"; RowKey := "rk"; BatchSize := 100 |}.

(** The output does not exist yet: [Get] answers 404. *)
Definition emptyRemote : OutputsClient :=
  {| Get := fun _ _ _ _ =>
       ({| Response := Some (mk_http_Response 404 "");
           Output_Name := None; Output_Properties := None |},
        Some (NewErrorWithError (upstream "ResourceNotFound") "streamanalytics.OutputsClient"
                "Get" (Some (mk_http_Response 404 "")) "Failure responding to request"));
     CreateOrReplace := fun _ output _ _ _ _ _ =>
       ({| Response := Some (mk_http_Response 200 "");
           Output_Name := Output_Name output;
           Output_Properties := Output_Properties output |}, None) |}.

Definition metadata : ResourceMetaData :=
  {| Decode := (model, None);
     OutputsClient_ := emptyRemote;
     Account_SubscriptionId := "sub1" |}.

Definition fresh : Store := {| ID := ""; calls := [] |}.

End Example.

End StreamAnalytics.

(** ** Bookkeeping of the list client

    A page belongs to the client [c] when its next-page function is the
    function literal of [c]'s responder exactly when it has a token; a
    request is one of [c]'s when it is a JSON GET on [c]'s base URI. *)

Module ConfigurationsInvariants.
Import Configurations.

Section Invariants.
Context {P : Package} {L : Libraries}.

Definition ownedBy (c : ConfigurationsClient) (page : ListByServerResponse) : Prop :=
  nextPageFunc page = (fun _ => nextPageClosure c) <$> nextLink page.

Definition requestOf (c : ConfigurationsClient) (req : Request) : Prop :=
  Method req = "GET" /\ BaseURL req = baseUri c /\
  ContentType req = "application/json; charset=utf-8".

(** The error [LoadMore] hands out when the token does not parse. *)
Definition unparsableToken (link : string) (cause : error) : error :=
  NewErrorWithError
    (Errorf "parsing nextLink %q: %+v" [ArgString link; ArgError cause])
    packageType "ListByServer" None "Failure preparing request".

End Invariants.

(** A remote side whose first page carries the token ":next", which is not
    a URL; every other token parses to [token], which has a repeated
    parameter and one without value. *)
Module Example.

Definition token : url_URL :=
  {| URL_Path := "/servers/s1/configurations";
     URL_Query := {[ "$skiptoken" := ["abc"; "def"]; "empty" := [] ]} |}.

#[local] Instance libraries : @Libraries Configurations.Example.package := {|
  autorest_Prepare := fun _ => None;
  autorest_Respond := fun resp =>
    match resp with
    | Some r => (@mkPage Configurations.Example.package [7; 8]%nat (Some (Body r)), None)
    | None => (@mkPage Configurations.Example.package [] None, None)
    end;
  autorest_Encode := fun _ v => v;
  url_Parse := fun link =>
    if String.eqb link ":next" then
      (mk_url_URL "" ∅, Some (upstream "missing protocol scheme"))
    else (token, None)
|}.

Definition client : ConfigurationsClient :=
  {| Client := {| Send := fun _ _ => (Some (mk_http_Response 200 ":next"), None) |};
     baseUri := "https://management.azure.com" |}.

End Example.

End ConfigurationsInvariants.

(** ** The list method of package [objectreplicationpolicies] *)

Module ObjectReplicationPolicies.
Import Configurations.

Record ObjectReplicationPoliciesClient : Type := mkObjectReplicationPoliciesClient {
  Client : autorest_Client;
  baseUri : string
}.

(** The declarations of the package that live in its other files. *)
Class Package : Type := {
  StorageAccountId : Type;
  StorageAccountId_ID : StorageAccountId -> string;
  ObjectReplicationPolicies : Type;
  defaultApiVersion : string
}.

Section Client.
Context `{Package}.

(** go-autorest as used by this method: [Prepare] of the preparer, and
    [autorest.Respond] with the decorators of the responder, unmarshalling
    into [&result.Model]. *)
Class Libraries : Type := {
  autorest_Prepare : Request -> option error;
  autorest_Respond : option http_Response
                     -> option ObjectReplicationPolicies * option error
}.

Context `{Libraries}.

Record ListResponse : Type := mkListResponse {
  HttpResponse : option http_Response;
  Model : option ObjectReplicationPolicies
}.

Definition zeroListResponse : ListResponse :=
  {| HttpResponse := None; Model := None |}.

Definition packageType : string :=
  "objectreplicationpolicies.ObjectReplicationPoliciesClient".

Definition send (c : ObjectReplicationPoliciesClient) (req : option Request)
    : M Log (option http_Response * option error) :=
  match req with
  | Some req => fun log => Done (Send (Client c) log req) (log ++ [req])
  | None => panic
  end.

Definition preparerForList (c : ObjectReplicationPoliciesClient) (id : StorageAccountId)
    : option Request * option error :=
  let queryParameters : gmap string string :=
    {[ "api-version" := defaultApiVersion ]} in
  let req :=
    {| ContentType := "application/json; charset=utf-8";
       Method := "GET";
       BaseURL := baseUri c;
       Path := StorageAccountId_ID id +:+ "/objectReplicationPolicies";
       QueryParameters := queryParameters |} in
  (Some req, autorest_Prepare req).

Definition responderForList (c : ObjectReplicationPoliciesClient)
    (resp : option http_Response) : ListResponse * option error :=
  let '(model, err) := autorest_Respond resp in
  ({| HttpResponse := resp; Model := model |}, err).

Definition List (c : ObjectReplicationPoliciesClient) (id : StorageAccountId)
    : M Log (ListResponse * option error) :=
  let '(req, err) := preparerForList c id in
  match err with
  | Some err =>
      ret (zeroListResponse,
           Some (NewErrorWithError err packageType "List" None
                   "Failure preparing request"))
  | None =>
      let* (httpResponse, err) := send c req in
      match err with
      | Some err =>
          ret ({| HttpResponse := httpResponse; Model := None |},
               Some (NewErrorWithError err packageType "List" httpResponse
                       "Failure sending request"))
      | None =>
          let '(result, err) := responderForList c httpResponse in
          match err with
          | Some err =>
              ret (result,
                   Some (NewErrorWithError err packageType "List"
                           (HttpResponse result) "Failure responding to request"))
          | None => ret (result, None)
          end
      end
  end.

End Client.

(** A small remote side, for examples: policies are numbers. *)
Module Example.

#[local] Instance package : Package := {|
  StorageAccountId := string;
  StorageAccountId_ID := fun id => id;
  ObjectReplicationPolicies := list nat;
  defaultApiVersion := "2021-04-01"
|}.

#[local] Instance libraries : Libraries := {|
  autorest_Prepare := fun _ => None;
  autorest_Respond := fun resp =>
    match resp with
    | Some r =>
        if Nat.eqb (StatusCode r) 200 then (Some [1; 2]%nat, None)
        else (None, Some (upstream "unexpected status"))
    | None => (None, None)
    end
|}.

Definition client (status : nat) : ObjectReplicationPoliciesClient :=
  {| Client := {| Send := fun _ _ => (Some (mk_http_Response status ""), None) |};
     baseUri := "https://management.azure.com" |}.

Definition accountId : StorageAccountId := "/storageAccounts/acc1".

End Example.

End ObjectReplicationPolicies.

(** ** The checks of the firewall acceptance tests *)

Module Firewall.

(** [parse.FirewallId]. *)
Record FirewallId : Type := mkFirewallId {
  SubscriptionId : string;
  ResourceGroup : string;
  AzureFirewallName : string
}.

(** [network.AzureFirewall] as far as the checks look at it. *)
Record AzureFirewallPropertiesFormat : Type := mkAzureFirewallPropertiesFormat {
  ProvisioningState : string
}.

Record AzureFirewall : Type := mkAzureFirewall {
  Response : option http_Response;
  AzureFirewallPropertiesFormat_ : option AzureFirewallPropertiesFormat
}.

Record Future : Type := mkFuture { PollingURL : string }.

Inductive Call : Type :=
| CallGet (resourceGroup azureFirewallName : string)
| CallDelete (resourceGroup azureFirewallName : string)
| CallWaitForCompletionRef (future : Future).

(** [network.AzureFirewallsClient] and its futures. *)
Record AzureFirewallsClient : Type := mkAzureFirewallsClient {
  Get : list Call -> string -> string -> AzureFirewall * option error;
  Delete : list Call -> string -> string -> Future * option error;
  WaitForCompletionRef : list Call -> Future -> option error
}.

(** [*pluginsdk.InstanceState]. *)
Record InstanceState : Type := mkInstanceState { ID : string }.

(** Functions of [firewall/parse], which live in other files. *)
Class Helpers : Type := {
  FirewallID : string -> option FirewallId * option error;
  FirewallId_String : FirewallId -> string
}.

Section Checks.
Context `{Helpers}.
Variable client : AzureFirewallsClient.

Definition client_Get (resourceGroup name : string)
    : M (list Call) (AzureFirewall * option error) :=
  fun log => Done (Get client log resourceGroup name)
                  (log ++ [CallGet resourceGroup name]).

Definition client_Delete (resourceGroup name : string)
    : M (list Call) (Future * option error) :=
  fun log => Done (Delete client log resourceGroup name)
                  (log ++ [CallDelete resourceGroup name]).

Definition future_WaitForCompletionRef (future : Future)
    : M (list Call) (option error) :=
  fun log => Done (WaitForCompletionRef client log future)
                  (log ++ [CallWaitForCompletionRef future]).

(** [FirewallResource.Exists]; the result is Go's pair of a [*bool] and an
    error. *)
Definition Exists (state : InstanceState)
    : M (list Call) (option bool * option error) :=
  let '(id, err) := FirewallID (ID state) in
  match err with
  | Some err => ret (None, Some err)
  | None =>
  match id with
  | None => panic
  | Some id =>
      let* (resp, err) := client_Get (ResourceGroup id) (AzureFirewallName id) in
      match err with
      | Some err =>
          ret (None,
               Some (Errorf "retrieving Azure Firewall %s : %v"
                       [ArgString (FirewallId_String id); ArgError err]))
      | None =>
          ret (Some (match AzureFirewallPropertiesFormat_ resp with
                     | Some _ => true
                     | None => false
                     end), None)
      end
  end
  end.

(** [FirewallResource.Destroy]. *)
Definition Destroy (state : InstanceState)
    : M (list Call) (option bool * option error) :=
  let '(id, err) := FirewallID (ID state) in
  match err with
  | Some err => ret (None, Some err)
  | None =>
  match id with
  | None => panic
  | Some id =>
      let* (future, err) := client_Delete (ResourceGroup id) (AzureFirewallName id) in
      match err with
      | Some err =>
          ret (None,
               Some (Errorf "deleting Azure Firewall %q: %+v"
                       [ArgString (AzureFirewallName id); ArgError err]))
      | None =>
          let* err := future_WaitForCompletionRef future in
          match err with
          | Some err =>
              ret (None,
                   Some (Errorf "waiting for Deletion on azureFirewallsClient: %+v"
                           [ArgError err]))
          | None => ret (Some true, None)
          end
      end
  end
  end.

End Checks.

(** A small remote side, for examples. *)
Module Example.

#[local] Instance helpers : Helpers := {|
  FirewallID := fun input =>
    match Logz.segments input with
    | [lead; k1; sub; k2; rg; k3; ns; k4; name] =>
        if forallb (fun kv => String.eqb kv.1 kv.2)
             (zip [lead; k1; k2; k3; ns; k4]
                  [""; "subscriptions"; "resourceGroups"; "providers";
                   "Microsoft.Network"; "azureFirewalls"])
        then (Some (mkFirewallId sub rg name), None)
        else (None, Some (upstream "ID was missing an element"))
    | _ => (None, Some (upstream "ID was missing an element"))
    end;
  FirewallId_String := fun id => "Azure Firewall: " +:+ AzureFirewallName id
|}.

Definition gone : error :=
  NewErrorWithError (upstream "ResourceNotFound") "network.AzureFirewallsClient"
    "Get" (Some (mk_http_Response 404 "")) "Failure responding to request".

(** The firewall exists until a deletion has been accepted. *)
Definition remote : AzureFirewallsClient :=
  {| Get := fun log _ _ =>
       if existsb (fun call => match call with CallDelete _ _ => true | _ => false end) log
       then ({| Response := Some (mk_http_Response 404 "");
                AzureFirewallPropertiesFormat_ := None |}, Some gone)
       else ({| Response := Some (mk_http_Response 200 "");
                AzureFirewallPropertiesFormat_ :=
                  Some (mkAzureFirewallPropertiesFormat "Succeeded") |}, None);
     Delete := fun _ _ _ => (mkFuture "https://management.azure.com/operations/3", None);
     WaitForCompletionRef := fun _ _ => None |}.

Definition state : InstanceState :=
  {| ID := "/subscriptions/sub1/resourceGroups/rg1/providers/Microsoft.Network/azureFirewalls/fw1" |}.

End Example.

End Firewall.

(** ** More remote sides for the Spring Cloud association *)

Module SpringCloudScenarios.
Import SpringCloud SpringCloud.Example.

(** What the read handler takes as the SSL parameter of a binding: the
    string stored under "useSsl", "false" when there is none, and nothing
    when the value stored there is not a string. *)
Definition sslParameter (props : BindingResourceProperties) : option string :=
  match BindingParameters props !! "useSsl" with
  | Some (VString s) => Some s
  | Some _ => None
  | None => Some "false"
  end.

(** The attributes a successful read writes, in the order it writes them. *)
Definition refreshed (helpers : Helpers) (id : SpringCloudAppAssociationId)
    (props : option (BindingResourceProperties * string))
    (fields : gmap string value) : gmap string value :=
  let fields :=
    <["spring_cloud_app_id" :=
        VString (AppId_ID (NewSpringCloudAppID (SubscriptionId id) (ResourceGroup id)
                             (SpringName id) (AppName id)))]>
      (<["name" := VString (BindingName id)]> fields) in
  match props with
  | Some (props, enableSSL) =>
      <["ssl_enabled" := VBool (EqualFold enableSSL "true")]>
        (<["redis_cache_id" := ofStringPtr (ResourceID props)]> fields)
  | None => fields
  end.

(** A remote side that accepts the creation but never shows the binding. *)
Definition vanishingRemote : BindingsClient :=
  {| Get := fun _ _ _ _ _ =>
       ({| Response := Some (mk_http_Response 404 ""); Properties := None |},
        Some notFound);
     CreateOrUpdate := fun _ _ _ _ _ _ => (mkFuture "https://management.azure.com/operations/1", None);
     Delete := fun _ _ _ _ _ => (mkFuture "https://management.azure.com/operations/2", None);
     WaitForCompletionRef := fun _ _ => None |}.

(** A remote side that returns the binding parameters as they were sent by
    the create: "useSsl" is a boolean. *)
Definition echoed : BindingResource :=
  {| Response := Some (mk_http_Response 200 "");
     Properties := Some
       {| ResourceID := Some "/subscriptions/sub1/resourceGroups/rg1/providers/Microsoft.Cache/Redis/cache1";
          Key := None;
          BindingParameters := {[ "useSsl" := VBool true ]} |} |}.

Definition echoingRemote : BindingsClient :=
  {| Get := fun _ _ _ _ _ => (echoed, None);
     CreateOrUpdate := fun _ _ _ _ _ _ => (mkFuture "https://management.azure.com/operations/1", None);
     Delete := fun _ _ _ _ _ => (mkFuture "https://management.azure.com/operations/2", None);
     WaitForCompletionRef := fun _ _ => None |}.

(** Resource data whose app identifier is not an identifier. *)
Definition misconfigured : Store :=
  {| d := {| Id := "";
             IsNewResource := true;
             fields := {[ "name" := VString "redis1";
                          "spring_cloud_app_id" := VString "app1" ]} |};
     calls := [] |}.

End SpringCloudScenarios.

(* ===================================================================== *)
(** * Part II: properties                                                 *)
(* ===================================================================== *)

(** ** The identifier codec *)

Section LogzFacts.
Import Logz.

Lemma append_cons c (a b : string) : String c a +:+ b = String c (a +:+ b).
Proof. reflexivity. Qed.

Lemma segments_nonempty s : segments s <> [].
Proof.
  destruct s as [|c s]; simpl; [discriminate|].
  destruct (Ascii.eqb c slash); [discriminate|].
  destruct (segments s); discriminate.
Qed.

Lemma segments_noSlash s : noSlash s = true -> segments s = [s].
Proof.
  induction s as [|c s IH]; simpl; [reflexivity|].
  intros [Hc Hs]%andb_prop.
  apply negb_true_iff in Hc. rewrite Hc, (IH Hs). reflexivity.
Qed.

Lemma segments_app_slash a b :
  noSlash a = true -> segments (a +:+ String slash b) = a :: segments b.
Proof.
  induction a as [|c a IH]; simpl.
  - reflexivity.
  - intros [Hc Ha]%andb_prop.
    apply negb_true_iff in Hc. rewrite Hc, (IH Ha). reflexivity.
Qed.

Lemma segments_joinSegments segs :
  Forall (fun s => noSlash s = true) segs -> segs <> [] ->
  segments (joinSegments segs) = segs.
Proof.
  induction 1 as [|s segs Hs Hsegs IH]; [congruence|].
  intros _. destruct segs as [|s' segs].
  - simpl. now apply segments_noSlash.
  - change (joinSegments (s :: s' :: segs))
      with (s +:+ String slash (joinSegments (s' :: segs))).
    rewrite segments_app_slash by assumption.
    rewrite IH; [reflexivity|discriminate].
Qed.

Lemma ID_joinSegments id : ID id = joinSegments (idSegments id).
Proof. destruct id. reflexivity. Qed.

Lemma validComponent_inv s :
  validComponent s = true -> String.eqb s "" = false /\ noSlash s = true.
Proof.
  unfold validComponent. intros [H1 H2]%andb_prop.
  split; [now apply negb_true_iff|assumption].
Qed.

Lemma validId_inv id :
  validId id = true ->
  validComponent (SubscriptionId id) = true /\
  validComponent (ResourceGroup id) = true /\
  validComponent (MonitorName id) = true /\
  validComponent (AccountName id) = true /\
  validComponent (TagRuleName id) = true.
Proof.
  unfold validId. intros H.
  do 4 (apply andb_prop in H; destruct H as [H ?]).
  repeat split; assumption.
Qed.

Lemma idSegments_noSlash id :
  validId id = true -> Forall (fun s => noSlash s = true) (idSegments id).
Proof.
  intros (H1 & H2 & H3 & H4 & H5)%validId_inv.
  apply validComponent_inv in H1, H2, H3, H4, H5.
  unfold idSegments. repeat constructor; tauto.
Qed.

Lemma segments_ID id : validId id = true -> segments (ID id) = idSegments id.
Proof.
  intros Hv. rewrite ID_joinSegments.
  apply segments_joinSegments; [now apply idSegments_noSlash|discriminate].
Qed.

(** The parser run on an explicit list of segments. *)
Lemma parse_idSegments input id :
  segments input = idSegments id ->
  nonEmptyComponents id = true ->
  LogzSubAccountTagRuleID input = inl id.
Proof.
  unfold nonEmptyComponents. intros Hseg Hne.
  do 4 (apply andb_prop in Hne; destruct Hne as [Hne ?]).
  repeat match goal with
         | H : negb _ = true |- _ => apply negb_true_iff in H
         end.
  unfold LogzSubAccountTagRuleID. rewrite Hseg. destruct id; simpl in *.
  repeat match goal with
         | H : String.eqb _ _ = false |- _ => rewrite H; clear H; simpl
         end.
  reflexivity.
Qed.

Lemma popSegment_inl key segs v rest :
  popSegment key segs = inl (v, rest) ->
  segs = key :: v :: rest /\ String.eqb v "" = false.
Proof.
  unfold popSegment. destruct segs as [|k [|v' rest']]; try discriminate.
  destruct (String.eqb k key) eqn:Hk; [|discriminate].
  destruct (String.eqb v' "") eqn:Hv; [discriminate|].
  intros [= <- <-]. apply String.eqb_eq in Hk. subst. auto.
Qed.

(** Whatever the parser accepts is the canonical form of what it
    returns. *)
Lemma parse_inl_inv input id :
  LogzSubAccountTagRuleID input = inl id ->
  segments input = idSegments id /\ nonEmptyComponents id = true.
Proof.
  unfold LogzSubAccountTagRuleID.
  destruct (segments input) as [|lead segs]; [discriminate|].
  destruct (String.eqb lead "") eqn:Hlead; simpl; [|discriminate].
  apply String.eqb_eq in Hlead. subst lead.
  destruct (popSegment "subscriptions" segs) as [[v1 r1]|] eqn:E1; [|discriminate].
  destruct (popSegment "resourceGroups" r1) as [[v2 r2]|] eqn:E2; [|discriminate].
  destruct (popSegment "providers" r2) as [[v3 r3]|] eqn:E3; [|discriminate].
  destruct (String.eqb v3 providerNamespace) eqn:Hp; simpl; [|discriminate].
  destruct (popSegment "monitors" r3) as [[v4 r4]|] eqn:E4; [|discriminate].
  destruct (popSegment "accounts" r4) as [[v5 r5]|] eqn:E5; [|discriminate].
  destruct (popSegment "tagRules" r5) as [[v6 r6]|] eqn:E6; [|discriminate].
  destruct r6; [|discriminate]. intros [= <-].
  apply popSegment_inl in E1 as [-> H1], E2 as [-> H2], E3 as [-> H3],
    E4 as [-> H4], E5 as [-> H5], E6 as [-> H6].
  apply String.eqb_eq in Hp. subst v3.
  unfold nonEmptyComponents, idSegments; simpl.
  rewrite H1, H2, H4, H5, H6. auto.
Qed.

Lemma validId_nonEmpty id : validId id = true -> nonEmptyComponents id = true.
Proof.
  intros (H1 & H2 & H3 & H4 & H5)%validId_inv.
  apply validComponent_inv in H1 as [H1 _], H2 as [H2 _], H3 as [H3 _],
    H4 as [H4 _], H5 as [H5 _].
  unfold nonEmptyComponents. rewrite H1, H2, H3, H4, H5. reflexivity.
Qed.

Lemma isError_not_inl {A} (r : A + error) :
  (forall a, r <> inl a) -> isError r = true.
Proof. destruct r as [a|e]; [intros Hr; destruct (Hr a eq_refl)|reflexivity]. Qed.

Lemma parse_inl_length input id :
  LogzSubAccountTagRuleID input = inl id -> length (segments input) = 13.
Proof. intros [-> _]%parse_inl_inv. reflexivity. Qed.

(** *** Incomplete identifiers *)

Lemma segments_joinSegments_any segs :
  Forall (fun s => noSlash s = true) segs ->
  segments (joinSegments segs) = match segs with [] => [""] | _ => segs end.
Proof.
  intros Hsegs. destruct segs as [|s segs]; [reflexivity|].
  apply segments_joinSegments; [assumption|discriminate].
Qed.

Lemma append_assoc (a b c : string) : (a +:+ b) +:+ c = a +:+ (b +:+ c).
Proof.
  induction a as [|x a IH]; [reflexivity|].
  rewrite !append_cons, IH. reflexivity.
Qed.

Lemma joinSegments_snoc segs s :
  segs <> [] ->
  joinSegments (segs ++ [s]) = joinSegments segs +:+ String slash s.
Proof.
  induction segs as [|a segs IH]; [congruence|]. intros _.
  destruct segs as [|b segs].
  - reflexivity.
  - change (joinSegments ((a :: b :: segs) ++ [s]))
      with (a +:+ String slash (joinSegments ((b :: segs) ++ [s]))).
    rewrite IH by discriminate.
    change (joinSegments (a :: b :: segs))
      with (a +:+ String slash (joinSegments (b :: segs))).
    rewrite append_assoc. reflexivity.
Qed.

Lemma prefix_rejected id k :
  validId id = true -> k < 13 ->
  isError (LogzSubAccountTagRuleID (joinSegments (take k (idSegments id)))) = true.
Proof.
  intros Hv Hk. apply isError_not_inl. intros id' Hp.
  apply parse_inl_length in Hp.
  rewrite segments_joinSegments_any in Hp
    by (apply Forall_take; now apply idSegments_noSlash).
  destruct (take k (idSegments id)) as [|s segs] eqn:Et; [discriminate|].
  rewrite <- Et, length_take in Hp. simpl in Hp. lia.
Qed.

Lemma prefix_slash_rejected id k :
  validId id = true -> k < 13 ->
  isError (LogzSubAccountTagRuleID
             (joinSegments (take k (idSegments id)) +:+ "/")) = true.
Proof.
  intros Hv Hk. apply isError_not_inl. intros id' Hp.
  destruct k as [|k].
  - apply parse_inl_length in Hp. discriminate.
  - assert (Hne : take (S k) (idSegments id) <> []) by discriminate.
    change "/" with (String slash "") in Hp.
    rewrite <- joinSegments_snoc in Hp by assumption.
    apply parse_inl_inv in Hp as [Hseg Hne'].
    rewrite segments_joinSegments in Hseg.
    + assert (Hlen := f_equal length Hseg).
      rewrite length_app, length_take in Hlen. simpl in Hlen.
      assert (k = 11) as -> by lia.
      simpl in Hseg. injection Hseg as Hsub Hrg Hmon Hacc Htag.
      unfold nonEmptyComponents in Hne'. rewrite <- Htag in Hne'.
      rewrite !andb_false_r in Hne'. discriminate.
    + apply Forall_app. split.
      * apply Forall_take. now apply idSegments_noSlash.
      * repeat constructor.
    + destruct (take (S k) (idSegments id)); [congruence|discriminate].
Qed.

(** *** Upper-cased identifiers *)

Lemma upperAscii_slash c : Ascii.eqb (upperAscii c) slash = Ascii.eqb c slash.
Proof. destruct c as [[] [] [] [] [] [] [] []]; reflexivity. Qed.

Lemma noSlash_ToUpper s : noSlash (ToUpper s) = noSlash s.
Proof.
  induction s as [|c s IH]; simpl; [reflexivity|].
  now rewrite upperAscii_slash, IH.
Qed.

Lemma ToUpper_app a b : ToUpper (a +:+ b) = ToUpper a +:+ ToUpper b.
Proof.
  induction a as [|c a IH]; [reflexivity|].
  rewrite append_cons. simpl. rewrite IH. reflexivity.
Qed.

Lemma ToUpper_joinSegments segs :
  ToUpper (joinSegments segs) = joinSegments (map ToUpper segs).
Proof.
  induction segs as [|s segs IH]; [reflexivity|].
  destruct segs as [|s' segs]; [reflexivity|].
  change (joinSegments (s :: s' :: segs))
    with (s +:+ String slash (joinSegments (s' :: segs))).
  rewrite ToUpper_app.
  change (ToUpper (String slash (joinSegments (s' :: segs))))
    with (String slash (ToUpper (joinSegments (s' :: segs)))).
  rewrite IH. reflexivity.
Qed.

Lemma segments_ToUpper_ID id :
  validId id = true ->
  segments (ToUpper (ID id)) = map ToUpper (idSegments id).
Proof.
  intros Hv. rewrite ID_joinSegments, ToUpper_joinSegments.
  apply segments_joinSegments; [|discriminate].
  apply Forall_map. eapply Forall_impl; [now apply idSegments_noSlash|].
  intros s Hs. simpl. now rewrite noSlash_ToUpper.
Qed.

Lemma upper_rejected id :
  validId id = true ->
  isError (LogzSubAccountTagRuleID (ToUpper (ID id))) = true.
Proof.
  intros Hv. apply isError_not_inl. intros id' Hp.
  apply parse_inl_inv in Hp as [Hseg _].
  rewrite segments_ToUpper_ID in Hseg by assumption.
  discriminate.
Qed.

(** *** The claims *)

(** C1. Parsing a formatted identifier gives the identifier back: for
    every valid tuple of components, [LogzSubAccountTagRuleID (ID x)]
    succeeds with [x]; in particular the result of parsing
    [NewLogzSubAccountTagRuleID(a, b, c, d, e).ID()] has the five
    arguments as its five fields. *)
Theorem logz_parse_format_roundtrip :
  (forall id, validId id = true -> LogzSubAccountTagRuleID (ID id) = inl id) /\
  (forall subscriptionId resourceGroup monitorName accountName tagRuleName,
     validId (NewLogzSubAccountTagRuleID subscriptionId resourceGroup
                monitorName accountName tagRuleName) = true ->
     exists parsed,
       LogzSubAccountTagRuleID
         (ID (NewLogzSubAccountTagRuleID subscriptionId resourceGroup
                monitorName accountName tagRuleName)) = inl parsed /\
       SubscriptionId parsed = subscriptionId /\
       ResourceGroup parsed = resourceGroup /\
       MonitorName parsed = monitorName /\
       AccountName parsed = accountName /\
       TagRuleName parsed = tagRuleName).
Proof.
  assert (Hround : forall id, validId id = true ->
                              LogzSubAccountTagRuleID (ID id) = inl id).
  { intros id Hv. apply parse_idSegments.
    - now apply segments_ID.
    - now apply validId_nonEmpty. }
  split; [exact Hround|].
  intros a b c d e Hv. eexists. split; [apply Hround, Hv|].
  repeat split.
Qed.

Lemma logz_parse_format_roundtrip_witness :
  validId exampleId = true /\
  LogzSubAccountTagRuleID (ID exampleId) = inl exampleId.
Proof.
  split; [reflexivity|].
  apply (proj1 logz_parse_format_roundtrip exampleId). reflexivity.
Defined.

(** C5. The parser returns an error for every string that lacks a
    required segment or the value of one: for every string whose
    segments are not those of an identifier with five non-empty values,
    for every proper prefix (cut at a segment boundary, with or without
    the trailing slash) of a valid identifier, for every valid identifier
    put in upper case, and for every row of the test table that expects
    an error. *)
Theorem logz_parse_rejects_incomplete_and_uppercase :
  (forall input,
     (forall id, segments input = idSegments id -> nonEmptyComponents id = false) ->
     isError (LogzSubAccountTagRuleID input) = true) /\
  (forall id k,
     validId id = true -> k < 13 ->
     isError (LogzSubAccountTagRuleID
                (joinSegments (take k (idSegments id)))) = true /\
     isError (LogzSubAccountTagRuleID
                (joinSegments (take k (idSegments id)) +:+ "/")) = true) /\
  (forall id,
     validId id = true ->
     isError (LogzSubAccountTagRuleID (ToUpper (ID id))) = true) /\
  (forall v,
     In v testData -> Error v = true ->
     isError (LogzSubAccountTagRuleID (Input v)) = true).
Proof.
  split; [|split; [|split]].
  - intros input Hno. apply isError_not_inl. intros id Hp.
    apply parse_inl_inv in Hp as [Hseg Hne].
    rewrite (Hno id Hseg) in Hne. discriminate.
  - intros id k Hv Hk. split.
    + now apply prefix_rejected.
    + now apply prefix_slash_rejected.
  - apply upper_rejected.
  - intros v Hin Herr. unfold testData in Hin. simpl in Hin.
    repeat (destruct Hin as [<- | Hin]; [first [reflexivity | discriminate]|]).
    destruct Hin.
Qed.

Lemma logz_parse_rejects_incomplete_and_uppercase_witness :
  validId exampleId = true /\ 8 < 13 /\
  isError (LogzSubAccountTagRuleID "/subscriptions/") = true /\
  isError (LogzSubAccountTagRuleID
             "/subscriptions/12345678-1234-9876-4563-123456789012/resourceGroups/resourceGroup1/providers/Microsoft.Logz/monitors/") = true /\
  isError (LogzSubAccountTagRuleID (ToUpper exampleString)) = true /\
  isError (LogzSubAccountTagRuleID "/") = true.
Proof.
  split; [reflexivity|]. split; [lia|]. split; [|split; [|split]].
  - apply (proj1 logz_parse_rejects_incomplete_and_uppercase "/subscriptions/").
    intros id Hseg. discriminate Hseg.
  - apply (proj2 (proj1 (proj2 logz_parse_rejects_incomplete_and_uppercase)
                    exampleId 8 eq_refl ltac:(lia))).
  - apply (proj1 (proj2 (proj2 logz_parse_rejects_incomplete_and_uppercase))
             exampleId eq_refl).
  - apply (proj2 (proj2 (proj2 logz_parse_rejects_incomplete_and_uppercase))
             (mkTestCase "/" true None)); [right; left; reflexivity|reflexivity].
Defined.

(** C6. The identifier built from the five components of the formatter
    test has exactly the expected string as its [ID()], and parsing that
    string succeeds and gives the five components back. *)
Theorem logz_example_format_and_parse :
  ID (NewLogzSubAccountTagRuleID "12345678-1234-9876-4563-123456789012"
        "resourceGroup1" "monitor1" "subAccount1" "ruleSet1")
  = "/subscriptions/12345678-1234-9876-4563-123456789012/resourceGroups/resourceGroup1/providers/Microsoft.Logz/monitors/monitor1/accounts/subAccount1/tagRules/ruleSet1" /\
  LogzSubAccountTagRuleID
    "/subscriptions/12345678-1234-9876-4563-123456789012/resourceGroups/resourceGroup1/providers/Microsoft.Logz/monitors/monitor1/accounts/subAccount1/tagRules/ruleSet1"
  = inl {| SubscriptionId := "12345678-1234-9876-4563-123456789012";
           ResourceGroup := "resourceGroup1";
           MonitorName := "monitor1";
           AccountName := "subAccount1";
           TagRuleName := "ruleSet1" |}.
Proof. split; reflexivity. Qed.

(** The whole table of TestLogzSubAccountTagRuleID passes. *)
Lemma testData_passes : forallb testCasePasses testData = true.
Proof. vm_compute. reflexivity. Qed.

End LogzFacts.

(** ** Paginated list completion *)

Section ConfigurationsFacts.
Import Configurations.
Context {P : Package} {L : Libraries}.

Implicit Types (c : ConfigurationsClient) (id : ServerId)
  (predicate : ServerConfigurationPredicate) (page : ListByServerResponse)
  (log : Log).

(** *** The accumulation loop is an append of the matching items *)

Lemma fold_left_append_matching predicate (model items : list ServerConfiguration) :
  fold_left (fun items v => if Matches predicate v then items ++ [v] else items)
            model items
  = items ++ List.filter (Matches predicate) model.
Proof.
  revert items. induction model as [|v model IH]; intros items; simpl.
  - now rewrite app_nil_r.
  - rewrite IH. destruct (Matches predicate v); [|reflexivity].
    now rewrite <- app_assoc.
Qed.

Lemma appendMatching_filter predicate page items :
  appendMatching predicate page items
  = items ++ List.filter (Matches predicate) (pageItems page).
Proof.
  unfold appendMatching, pageItems. destruct (Model page) as [model|].
  - apply fold_left_append_matching.
  - now rewrite app_nil_r.
Qed.

Lemma filter_drained_snoc predicate (pages : list ListByServerResponse) page :
  List.filter (Matches predicate) (concat (map pageItems (pages ++ [page])))
  = List.filter (Matches predicate) (concat (map pageItems pages))
    ++ List.filter (Matches predicate) (pageItems page).
Proof.
  rewrite map_app, concat_app, List.filter_app. simpl.
  now rewrite app_nil_r.
Qed.

(** *** Completion against draining *)

Lemma loadRemaining_drainRemaining fuel predicate :
  forall page pages log,
    loadRemaining fuel predicate page
      (List.filter (Matches predicate) (concat (map pageItems pages))) log
    = mapOutcome (filterDrained predicate) (drainRemaining fuel page pages log).
Proof.
  induction fuel as [|fuel IH]; intros page pages log; simpl;
    destruct (HasMore page); try reflexivity.
  unfold bind. destruct (LoadMore page log) as [[page' [err|]] log'| |];
    try reflexivity.
  rewrite appendMatching_filter, <- filter_drained_snoc. apply IH.
Qed.

Lemma complete_drain fuel c id predicate log :
  ListByServerCompleteMatchingPredicate fuel c id predicate log
  = drainThenFilter fuel c id predicate log.
Proof.
  unfold ListByServerCompleteMatchingPredicate, drainThenFilter, drainPages, bind.
  destruct (ListByServer c id log) as [[page [err|]] log'| |]; try reflexivity.
  rewrite appendMatching_filter. simpl app.
  rewrite <- (app_nil_r (pageItems page)).
  apply (loadRemaining_drainRemaining fuel predicate page [page] log').
Qed.

(** *** What the responder hands out *)

Lemma responder_nextPageFunc c resp :
  let r := (responderForListByServer c resp).1 in
  nextLink r = NextLink (autorest_Respond resp).1 /\
  nextPageFunc r = (fun _ => nextPageClosure c) <$> nextLink r /\
  Model r = Some (Values (autorest_Respond resp).1).
Proof.
  unfold responderForListByServer.
  destruct (autorest_Respond resp) as [respObj err]; simpl.
  destruct (NextLink respObj); auto.
Qed.

Lemma sendAndRespond_served c log req resp p :
  Send (Client c) log req = (resp, None) ->
  autorest_Respond resp = (p, None) ->
  sendAndRespond c (Some req, None) log
  = Done ({| HttpResponse := resp;
             Model := Some (Values p);
             nextLink := NextLink p;
             nextPageFunc := (fun _ => nextPageClosure c) <$> NextLink p |},
          None) (log ++ [req]).
Proof.
  intros Hsend Hresp. unfold sendAndRespond, bind, send.
  rewrite Hsend. unfold responderForListByServer. rewrite Hresp.
  destruct (NextLink p); reflexivity.
Qed.

(** Draining a served sequence yields one page object per served page. *)
Lemma serves_drain c log req ps log' :
  ServesPages c log req ps log' ->
  forall fuel, length ps <= S fuel ->
  exists page pages log1,
    sendAndRespond c (Some req, None) log = Done (page, None) log1 /\
    (forall acc, drainRemaining fuel page acc log1 = Done (acc ++ pages, None) log') /\
    map pageItems (page :: pages) = map Values ps /\
    map HasMore (page :: pages) = replicate (length ps - 1) true ++ [false].
Proof.
  induction 1 as [log req resp p Hsend Hresp Hlast
                 |log req resp p link req' ps log' Hsend Hresp Hlink Hprep Hrest IH];
    intros fuel Hfuel.
  - eexists _, [], _. split; [exact (sendAndRespond_served _ _ _ _ _ Hsend Hresp)|].
    unfold HasMore, pageItems; simpl. rewrite Hlast. split; [|split]; try reflexivity.
    intros acc. rewrite app_nil_r. destruct fuel; reflexivity.
  - simpl in Hfuel. destruct fuel as [|fuel].
    { inversion Hrest; subst; simpl in Hfuel; lia. }
    destruct (IH fuel ltac:(lia)) as (page' & pages & log1 & Hfetch & Hdrain & Hitems & Hmore).
    eexists _, (page' :: pages), _.
    split; [exact (sendAndRespond_served _ _ _ _ _ Hsend Hresp)|]. split; [|split].
    + intros acc. rewrite Hlink. simpl.
      unfold bind, LoadMore. simpl.
      rewrite Hprep, Hfetch, Hdrain, <- app_assoc. reflexivity.
    + simpl in *. unfold pageItems at 1. simpl. now rewrite Hitems.
    + change (map HasMore (?x :: page' :: pages))
        with (HasMore x :: map HasMore (page' :: pages)).
      rewrite Hmore. unfold HasMore. simpl. rewrite Hlink.
      assert (length ps <> 0) by (inversion Hrest; simpl; lia).
      replace (length ps - 0) with (S (length ps - 1)) by lia. reflexivity.
Qed.

(** *** Failing fetches *)

Lemma loads_until_failure_complete predicate n page log err log' :
  LoadsUntilFailure n page log err log' ->
  forall fuel items, n < fuel ->
    loadRemaining fuel predicate page items log
    = Done (zeroCompleteResult,
            Some (Errorf (failureContext NextPage) [ArgError err])) log'.
Proof.
  induction 1 as [page log resp err log' Hmore Hload
                 |n page log page' log1 err log' Hmore Hload Hrest IH];
    intros fuel items Hfuel; (destruct fuel as [|fuel]; [lia|]);
    simpl; rewrite Hmore; unfold bind; rewrite Hload.
  - reflexivity.
  - apply IH. lia.
Qed.

Lemma loadRemaining_error_inv predicate fuel :
  forall page items log res err log',
    loadRemaining fuel predicate page items log = Done (res, Some err) log' ->
    res = zeroCompleteResult /\
    exists n cause,
      LoadsUntilFailure n page log cause log' /\ n < fuel /\
      err = Errorf (failureContext NextPage) [ArgError cause].
Proof.
  induction fuel as [|fuel IH]; intros page items log res err log'; simpl;
    (destruct (HasMore page) eqn:Hmore; [|discriminate]); [discriminate|].
  unfold bind.
  destruct (LoadMore page log) as [[page' [cause|]] log1| |] eqn:Hload;
    try discriminate.
  - intros [= <- <- <-]. split; [reflexivity|].
    exists 0, cause. split; [|split; [lia|reflexivity]].
    eapply FailNow; eassumption.
  - intros Hrest. apply IH in Hrest as (-> & n & cause' & Hfail & Hn & ->).
    split; [reflexivity|].
    exists (S n), cause'. split; [|split; [lia|reflexivity]].
    eapply FailLater; eassumption.
Qed.

(** *** The claims *)

(** C2. When the remote side serves N linked pages (every page but the
    last carries a continuation token that leads to the next one), the
    completion with the empty predicate, which matches everything,
    returns the items of all pages, page after page and in the order of
    each page; and of the N page objects fetched, [HasMore] is true on
    the first N-1 and false on the last. *)
Theorem complete_concatenates_linked_pages c id req ps log log' fuel :
  preparerForListByServer c id = (Some req, None) ->
  ServesPages c log req ps log' ->
  (forall v, Matches emptyPredicate v = true) ->
  length ps <= S fuel ->
  ListByServerComplete fuel c id log
    = Done ({| Items := concat (map Values ps) |}, None) log' /\
  ListByServerCompleteMatchingPredicate fuel c id emptyPredicate log
    = Done ({| Items := concat (map Values ps) |}, None) log' /\
  exists pages,
    drainPages fuel c id log = Done (pages, None) log' /\
    map pageItems pages = map Values ps /\
    map HasMore pages = replicate (length ps - 1) true ++ [false].
Proof.
  intros Hprep Hserves Hall Hfuel.
  destruct (serves_drain _ _ _ _ _ Hserves fuel Hfuel)
    as (page & pages & log1 & Hfetch & Hdrain & Hitems & Hmore).
  assert (Hdrained : drainPages fuel c id log = Done (page :: pages, None) log').
  { unfold drainPages, bind, ListByServer. rewrite Hprep, Hfetch. apply (Hdrain [page]). }
  assert (Hcomplete :
    ListByServerCompleteMatchingPredicate fuel c id emptyPredicate log
    = Done ({| Items := concat (map Values ps) |}, None) log').
  { rewrite complete_drain. unfold drainThenFilter. rewrite Hdrained. simpl.
    rewrite <- Hitems. f_equal. f_equal. f_equal.
    apply forallb_filter_id. apply forallb_forall. intros v _. apply Hall. }
  split; [exact Hcomplete|]. split; [exact Hcomplete|].
  exists (page :: pages). auto.
Qed.

(** C3. When a fetch fails, the completion returns an error and the zero
    result, whatever was accumulated before: the error wraps the cause
    with "loading the initial page" when the first request failed and
    with "loading the next page" when a follow-up failed; conversely
    every error the completion returns arises this way; and the two
    contexts tell the positions apart. *)
Theorem complete_failure_discards_items c id predicate :
  (forall log pos k err log' fuel,
     FetchFails c id log pos k err log' -> k <= fuel ->
     ListByServerCompleteMatchingPredicate fuel c id predicate log
     = Done (zeroCompleteResult,
             Some (Errorf (failureContext pos) [ArgError err])) log') /\
  (forall fuel log res err log',
     ListByServerCompleteMatchingPredicate fuel c id predicate log
     = Done (res, Some err) log' ->
     Items res = [] /\
     exists pos k cause,
       FetchFails c id log pos k cause log' /\
       err = Errorf (failureContext pos) [ArgError cause]) /\
  (forall pos,
     (failureContext pos = "loading the initial page: %+v" <-> pos = InitialPage) /\
     (failureContext pos = "loading the next page: %+v" <-> pos = NextPage)).
Proof.
  split; [|split].
  - intros log pos k err log' fuel Hfail Hfuel.
    unfold ListByServerCompleteMatchingPredicate, bind.
    destruct Hfail as [log resp err log' Hlist|log page log1 n err log' Hlist Hloads];
      rewrite Hlist.
    + reflexivity.
    + eapply loads_until_failure_complete; [eassumption|lia].
  - intros fuel log res err log'.
    unfold ListByServerCompleteMatchingPredicate, bind.
    destruct (ListByServer c id log) as [[page [cause|]] log1| |] eqn:Hlist;
      try discriminate.
    + intros [= <- <- <-]. split; [reflexivity|].
      exists InitialPage, 0, cause. split; [|reflexivity].
      eapply FailsInitial; eassumption.
    + intros Hrest.
      apply loadRemaining_error_inv in Hrest as (-> & n & cause & Hfail & _ & ->).
      split; [reflexivity|].
      exists NextPage, (S n), cause. split; [|reflexivity].
      eapply FailsNext; eassumption.
  - intros [|]; simpl; split; split; intros; try reflexivity; discriminate.
Qed.

(** C4. Filtering while the pages arrive gives the same result as
    draining all pages and filtering the concatenation of their items:
    the two computations agree on every outcome, and when draining yields
    the pages [pages] the completion returns exactly the filtered
    concatenation, in order. *)
Theorem complete_refines_drain_then_filter fuel c id predicate log :
  ListByServerCompleteMatchingPredicate fuel c id predicate log
    = drainThenFilter fuel c id predicate log /\
  (forall pages log',
     drainPages fuel c id log = Done (pages, None) log' ->
     ListByServerCompleteMatchingPredicate fuel c id predicate log
     = Done ({| Items := List.filter (Matches predicate)
                           (concat (map pageItems pages)) |}, None) log').
Proof.
  split; [apply complete_drain|].
  intros pages log' Hdrained. rewrite complete_drain.
  unfold drainThenFilter. rewrite Hdrained. reflexivity.
Qed.

(** C10. On a response without continuation token [LoadMore] answers "no
    more pages returned" and sends nothing; on a response with a token it
    is the call of the stored next-page function on that token; and the
    responder stores a next-page function exactly when the decoded page
    carries a [nextLink]. *)
Theorem loadMore_only_with_token :
  (forall page log,
     HasMore page = false ->
     LoadMore page log
     = Done (zeroResponse, Some (Errorf "no more pages returned" [])) log) /\
  (forall page log,
     HasMore page = true ->
     exists link,
       nextLink page = Some link /\
       LoadMore page log = callNextPageFunc (nextPageFunc page) link log) /\
  (forall c resp,
     let r := (responderForListByServer c resp).1 in
     let respObj := (autorest_Respond resp).1 in
     (nextPageFunc r = Some (nextPageClosure c) <-> is_Some (NextLink respObj)) /\
     (nextPageFunc r = None <-> NextLink respObj = None) /\
     (HasMore r = true <-> is_Some (NextLink respObj))).
Proof.
  split; [|split].
  - intros page log Hmore. unfold LoadMore. rewrite Hmore. reflexivity.
  - intros page log Hmore. unfold LoadMore. rewrite Hmore. simpl.
    unfold HasMore in Hmore. destruct (nextLink page) as [link|]; [|discriminate].
    exists link. split; reflexivity.
  - intros c resp. simpl. unfold responderForListByServer, HasMore.
    destruct (autorest_Respond resp) as [respObj err]. simpl.
    destruct (NextLink respObj) as [link|].
    + repeat split; intros; eauto; discriminate.
    + repeat split; intros; try discriminate; try reflexivity;
        match goal with H : is_Some None |- _ => destruct H; discriminate end.
Qed.

End ConfigurationsFacts.

(** *** The claims on the example remote side *)

Section ConfigurationsExamples.
Import Configurations Configurations.Example.
#[local] Existing Instance package.
#[local] Existing Instance libraries.

Lemma complete_concatenates_linked_pages_witness :
  exists log',
    ListByServerComplete 2 (client "") serverId []
    = Done ({| Items := [1; 2; 3; 4; 5]%nat |}, None) log'.
Proof.
  eexists.
  refine (proj1 (complete_concatenates_linked_pages
                   (client "") serverId _
                   [mkPage [1; 2] (Some "next2"); mkPage [3] (Some "next3");
                    mkPage [4; 5] None]%nat [] _ 2 _ _ _ _)).
  - reflexivity.
  - eapply ServesNext; [reflexivity..|].
    eapply ServesNext; [reflexivity..|].
    eapply ServesLast; reflexivity.
  - intros v. reflexivity.
  - simpl. lia.
Defined.

Lemma complete_failure_discards_items_witness :
  (exists cause log',
     ListByServerCompleteMatchingPredicate 2 (client "next3") serverId None []
     = Done (zeroCompleteResult,
             Some (Errorf "loading the next page: %+v" [ArgError cause])) log') /\
  (exists cause log',
     ListByServerCompleteMatchingPredicate 0 (client "/servers/s1/configurations")
       serverId None []
     = Done (zeroCompleteResult,
             Some (Errorf "loading the initial page: %+v" [ArgError cause])) log').
Proof.
  split; eexists _, _.
  - refine (proj1 (complete_failure_discards_items (client "next3") serverId None)
              [] NextPage 2 _ _ 2 _ _); [|lia].
    eapply FailsNext; [reflexivity|].
    eapply FailLater; [reflexivity|reflexivity|].
    eapply FailNow; reflexivity.
  - refine (proj1 (complete_failure_discards_items
                     (client "/servers/s1/configurations") serverId None)
              [] InitialPage 0 _ _ 0 _ _); [|lia].
    eapply FailsInitial; reflexivity.
Defined.

Lemma complete_refines_drain_then_filter_witness :
  exists log',
    ListByServerCompleteMatchingPredicate 2 (client "") serverId (Some 3) []
    = Done ({| Items := [3]%nat |}, None) log'.
Proof.
  eexists.
  exact (proj2 (complete_refines_drain_then_filter 2 (client "") serverId (Some 3) [])
           _ _ eq_refl).
Defined.

Lemma loadMore_only_with_token_witness :
  HasMore lastPage = false /\
  LoadMore lastPage []
  = Done (zeroResponse, Some (Errorf "no more pages returned" [])) [].
Proof.
  split; [reflexivity|].
  exact (proj1 loadMore_only_with_token lastPage [] eq_refl).
Defined.

End ConfigurationsExamples.

(** ** The resource handlers *)

Section SpringCloudFacts.
Import SpringCloud.
Context {H : Helpers}.

Implicit Types (client : BindingsClient) (st : Store) (data : ResourceData).

(** *** Reading schema-typed resource data *)

Lemma valueOf_string data key :
  typed data key TypeString = true ->
  Schema !! key = Some TypeString ->
  valueOf data key = VString (stringOf data key).
Proof.
  unfold typed, stringOf, valueOf. intros Htyped ->.
  destruct (fields data !! key) as [[s|b|]|]; simpl in *;
    reflexivity || discriminate.
Qed.

Lemma valueOf_bool data key :
  typed data key TypeBool = true ->
  Schema !! key = Some TypeBool ->
  valueOf data key = VBool (boolOf data key).
Proof.
  unfold typed, boolOf, valueOf. intros Htyped ->.
  destruct (fields data !! key) as [[s|b|]|]; simpl in *;
    reflexivity || discriminate.
Qed.

Lemma conforms_values data :
  conforms data = true ->
  valueOf data "name" = VString (stringOf data "name") /\
  valueOf data "spring_cloud_app_id" = VString (stringOf data "spring_cloud_app_id") /\
  valueOf data "redis_cache_id" = VString (stringOf data "redis_cache_id") /\
  valueOf data "redis_access_key" = VString (stringOf data "redis_access_key") /\
  valueOf data "ssl_enabled" = VBool (boolOf data "ssl_enabled").
Proof.
  unfold conforms. intros Hc.
  do 4 (apply andb_prop in Hc; destruct Hc as [Hc ?]).
  repeat split;
    (apply valueOf_string || apply valueOf_bool); assumption || reflexivity.
Qed.

(** *** The handlers, case by case *)

Lemma probeExisting_cases client id st :
  let probe := Get client (calls st) (ResourceGroup id) (SpringName id)
                 (AppName id) (BindingName id) in
  probeExisting client id st
  = Done (if ResponseWasNotFound (Response probe.1) then None
          else Some match probe.2 with
                    | Some err =>
                        Errorf "checking for present of existing %s: %+v"
                          [ArgString (AssociationId_String id); ArgError err]
                    | None =>
                        ImportAsExistsError "azurerm_spring_cloud_app_redis_association"
                          (AssociationId_ID id)
                    end)
         (called st (CallGet (ResourceGroup id) (SpringName id) (AppName id)
                       (BindingName id))).
Proof.
  unfold probeExisting, bind, client_Get, called. simpl.
  destruct (Get client _ _ _ _ _) as [existing [err|]]; simpl;
    destruct (ResponseWasNotFound (Response existing)); reflexivity.
Qed.

Lemma read_cases client st id :
  SpringCloudAppAssociationID (Id (d st)) = (Some id, None) ->
  forall resp err,
    Get client (calls st) (ResourceGroup id) (SpringName id) (AppName id)
      (BindingName id) = (resp, Some err) ->
    resourceSpringCloudAppRedisAssociationRead client st
    = let st1 := called st (CallGet (ResourceGroup id) (SpringName id)
                              (AppName id) (BindingName id)) in
      if ResponseWasNotFound (Response resp) then Done None (withId st1 "")
      else Done (Some (Errorf "reading %s: %+v"
                         [ArgString (AssociationId_String id); ArgError err])) st1.
Proof.
  intros Hparse resp err Hget.
  unfold resourceSpringCloudAppRedisAssociationRead, bind, d_Id, client_Get.
  rewrite Hparse. simpl. rewrite Hget.
  destruct (ResponseWasNotFound (Response resp)); reflexivity.
Qed.

Lemma delete_cases client st id :
  SpringCloudAppAssociationID (Id (d st)) = (Some id, None) ->
  resourceSpringCloudAppRedisAssociationDelete client st
  = let deletion := Delete client (calls st) (ResourceGroup id) (SpringName id)
                      (AppName id) (BindingName id) in
    let st1 := called st (CallDelete (ResourceGroup id) (SpringName id)
                            (AppName id) (BindingName id)) in
    let st2 := called st1 (CallWaitForCompletionRef deletion.1) in
    match deletion.2 with
    | Some err =>
        Done (Some (Errorf "deleting %s: %+v"
                      [ArgString (AssociationId_String id); ArgError err])) st1
    | None =>
        match WaitForCompletionRef client (calls st1) deletion.1 with
        | Some err =>
            Done (Some (Errorf "waiting for deletion of %q: %+v"
                          [ArgString (AssociationId_String id); ArgError err])) st2
        | None => Done None st2
        end
    end.
Proof.
  intros Hparse.
  unfold resourceSpringCloudAppRedisAssociationDelete, bind, d_Id, client_Delete,
    future_WaitForCompletionRef.
  rewrite Hparse. simpl.
  destruct (Delete client _ _ _ _ _) as [future [err|]]; simpl; [reflexivity|].
  destruct (WaitForCompletionRef client _ future); reflexivity.
Qed.

Lemma create_cases client st appId :
  IsNewResource (d st) = true ->
  conforms (d st) = true ->
  SpringCloudAppID (stringOf (d st) "spring_cloud_app_id") = (Some appId, None) ->
  let id := NewSpringCloudAppAssociationID (App_SubscriptionId appId)
              (App_ResourceGroup appId) (App_SpringName appId) (App_AppName appId)
              (stringOf (d st) "name") in
  let probe := Get client (calls st) (ResourceGroup id) (SpringName id)
                 (AppName id) (BindingName id) in
  let st1 := called st (CallGet (ResourceGroup id) (SpringName id) (AppName id)
                          (BindingName id)) in
  let creation := CreateOrUpdate client (calls st1) (ResourceGroup id)
                    (SpringName id) (AppName id) (BindingName id)
                    (bindingResourceOf (d st)) in
  let st2 := called st1 (CallCreateOrUpdate (ResourceGroup id) (SpringName id)
                           (AppName id) (BindingName id) (bindingResourceOf (d st))) in
  let st3 := called st2 (CallWaitForCompletionRef creation.1) in
  resourceSpringCloudAppRedisAssociationCreateUpdate client st
  = if ResponseWasNotFound (Response probe.1) then
      match creation.2 with
      | Some err =>
          Done (Some (Errorf "creating %s: %+v"
                        [ArgString (AssociationId_String id); ArgError err])) st2
      | None =>
          match WaitForCompletionRef client (calls st2) creation.1 with
          | Some err =>
              Done (Some (Errorf "waiting for creation/update of %q: %+v"
                            [ArgString (AssociationId_String id); ArgError err])) st3
          | None =>
              resourceSpringCloudAppRedisAssociationRead client
                (withId st3 (AssociationId_ID id))
          end
      end
    else
      Done (Some match probe.2 with
                 | Some err =>
                     Errorf "checking for present of existing %s: %+v"
                       [ArgString (AssociationId_String id); ArgError err]
                 | None =>
                     ImportAsExistsError "azurerm_spring_cloud_app_redis_association"
                       (AssociationId_ID id)
                 end) st1.
Proof.
  intros Hnew Hconf Hparse.
  destruct (conforms_values _ Hconf) as (Hname & Happ & Hcache & Hkey & Hssl).
  unfold resourceSpringCloudAppRedisAssociationCreateUpdate.
  unfold bind at 1. unfold bind at 1. unfold d_Get at 1. rewrite Happ. simpl.
  rewrite Hparse.
  unfold bind at 1. unfold bind at 1. unfold d_Get at 1. rewrite Hname. simpl.
  unfold bind at 1. unfold d_IsNewResource at 1. rewrite Hnew.
  unfold bind at 1. rewrite probeExisting_cases. simpl.
  destruct (ResponseWasNotFound _); [|reflexivity].
  unfold bind, d_Get, client_CreateOrUpdate, future_WaitForCompletionRef, d_SetId.
  simpl. rewrite Hssl. simpl. rewrite Hkey. simpl. rewrite Hcache. simpl.
  fold (bindingResourceOf (d st)).
  destruct (CreateOrUpdate client _ _ _ _ _ _) as [future [err|]]; simpl;
    [reflexivity|].
  destruct (WaitForCompletionRef client _ future); reflexivity.
Qed.

(** *** The claims about reading and deleting *)

(** C8. When [Get] fails with a not-found response, the read handler sets
    the identifier to the empty string, returns nil and leaves every
    attribute as it was; when [Get] fails with any other response, it
    returns the wrapped error and leaves the resource data, identifier
    included, as it was.  In both cases [Get] is the only call made. *)
Theorem read_not_found_clears_identity client st id resp err :
  SpringCloudAppAssociationID (Id (d st)) = (Some id, None) ->
  Get client (calls st) (ResourceGroup id) (SpringName id) (AppName id)
    (BindingName id) = (resp, Some err) ->
  let probe := CallGet (ResourceGroup id) (SpringName id) (AppName id)
                 (BindingName id) in
  (ResponseWasNotFound (Response resp) = true ->
   resourceSpringCloudAppRedisAssociationRead client st
   = Done None {| d := {| Id := "";
                          IsNewResource := IsNewResource (d st);
                          fields := fields (d st) |};
                  calls := calls st ++ [probe] |}) /\
  (ResponseWasNotFound (Response resp) = false ->
   resourceSpringCloudAppRedisAssociationRead client st
   = Done (Some (Errorf "reading %s: %+v"
                   [ArgString (AssociationId_String id); ArgError err]))
          {| d := d st; calls := calls st ++ [probe] |}).
Proof.
  intros Hparse Hget probe.
  split; intros Hnf; rewrite (read_cases _ _ _ Hparse _ _ Hget); simpl;
    rewrite Hnf; reflexivity.
Qed.

(** C9, as the code has it. The delete handler returns nil exactly when
    both the deletion call and the wait for its completion return nil; an
    error of either, a not-found one included, is returned wrapped
    ("deleting ..." or "waiting for deletion of ..."), and the resource
    data is never touched. *)
Theorem delete_returns_errors_of_both_calls client st id :
  SpringCloudAppAssociationID (Id (d st)) = (Some id, None) ->
  let deletion := Delete client (calls st) (ResourceGroup id) (SpringName id)
                    (AppName id) (BindingName id) in
  let call := CallDelete (ResourceGroup id) (SpringName id) (AppName id)
                (BindingName id) in
  let waited := WaitForCompletionRef client (calls st ++ [call]) deletion.1 in
  let wait := CallWaitForCompletionRef deletion.1 in
  (forall err,
     deletion.2 = Some err ->
     resourceSpringCloudAppRedisAssociationDelete client st
     = Done (Some (Errorf "deleting %s: %+v"
                     [ArgString (AssociationId_String id); ArgError err]))
            {| d := d st; calls := calls st ++ [call] |}) /\
  (forall err,
     deletion.2 = None -> waited = Some err ->
     resourceSpringCloudAppRedisAssociationDelete client st
     = Done (Some (Errorf "waiting for deletion of %q: %+v"
                     [ArgString (AssociationId_String id); ArgError err]))
            {| d := d st; calls := (calls st ++ [call]) ++ [wait] |}) /\
  (deletion.2 = None -> waited = None ->
   resourceSpringCloudAppRedisAssociationDelete client st
   = Done None {| d := d st; calls := (calls st ++ [call]) ++ [wait] |}) /\
  ((exists st', resourceSpringCloudAppRedisAssociationDelete client st = Done None st')
   <-> deletion.2 = None /\ waited = None).
Proof.
  intros Hparse deletion call waited wait.
  rewrite (delete_cases _ _ _ Hparse). simpl.
  fold deletion. fold call. fold waited. fold wait.
  split; [|split; [|split]].
  - intros err ->. reflexivity.
  - intros err -> ->. reflexivity.
  - intros -> ->. reflexivity.
  - destruct (deletion.2) as [e|].
    + split; [intros [st' [=]]|intros [[=] _]].
    + destruct waited as [e|].
      * split; [intros [st' [=]]|intros [_ [=]]].
      * split; eauto.
Qed.

End SpringCloudFacts.

Section StreamAnalyticsFacts.
Import StreamAnalytics.
Context {H : Helpers}.

Lemma output_create_cases metadata st model :
  Decode metadata = (model, None) ->
  let id := NewOutputID (Account_SubscriptionId metadata) (ResourceGroup model)
              (StreamAnalyticsJob model) (Name model) in
  let client := OutputsClient_ metadata in
  let probe := Get client (calls st) (Id_ResourceGroup id)
                 (Id_StreamingjobName id) (Id_Name id) in
  let st1 := called st (CallGet (Id_ResourceGroup id) (Id_StreamingjobName id)
                          (Id_Name id)) in
  let creation := CreateOrReplace client (calls st1) (outputOf model)
                    (Id_ResourceGroup id) (Id_StreamingjobName id) (Id_Name id)
                    "" "" in
  let st2 := called st1 (CallCreateOrReplace (outputOf model) (Id_ResourceGroup id)
                           (Id_StreamingjobName id) (Id_Name id) "" "") in
  Create metadata st
  = if ResponseWasNotFound (Response probe.1) then
      match creation.2 with
      | Some err =>
          Done (Some (Errorf "creating %s: %+v"
                        [ArgString (OutputId_String id); ArgError err])) st2
      | None => Done None {| ID := OutputId_ID id; calls := calls st2 |}
      end
    else
      Done (Some match probe.2 with
                 | Some err =>
                     Errorf "checking for presence of existing %s: %+v"
                       [ArgString (OutputId_String id); ArgError err]
                 | None => ResourceRequiresImport ResourceType (OutputId_ID id)
                 end) st1.
Proof.
  intros Hdecode. unfold Create. rewrite Hdecode. simpl.
  unfold bind, client_Get, client_CreateOrReplace, metadata_SetID, called. simpl.
  destruct (Get (OutputsClient_ metadata) _ _ _ _) as [existing [err|]]; simpl;
    (destruct (ResponseWasNotFound (Response existing)); simpl; [|reflexivity]);
    fold (outputOf model);
    destruct (CreateOrReplace (OutputsClient_ metadata) _ _ _ _ _ _ _)
      as [created [err'|]]; reflexivity.
Qed.

End StreamAnalyticsFacts.

(** *** The claim about creating *)

(** C7, as the code has it. A create on a new resource first probes for
    the object by its identifier.  When the probe's response is anything
    but not-found, create fails after that one call, without a creation
    call: with the import-required error when the probe itself returned no
    error, and with a "checking for presence" error wrapping the probe's
    error when it did.  When the probe's response is not-found the creation
    call is issued; the association handler then waits for the long-running
    operation and records the identifier, before reading the resource back,
    only once the wait has returned nil; the table output, whose creation
    call is synchronous, records the identifier only once that call has
    returned nil. *)
Theorem create_probes_before_creating :
  (forall (H : SpringCloud.Helpers) client st appId,
     SpringCloud.IsNewResource (SpringCloud.d st) = true ->
     SpringCloud.conforms (SpringCloud.d st) = true ->
     SpringCloud.SpringCloudAppID
       (SpringCloud.stringOf (SpringCloud.d st) "spring_cloud_app_id")
     = (Some appId, None) ->
     let id := SpringCloud.NewSpringCloudAppAssociationID
                 (SpringCloud.App_SubscriptionId appId)
                 (SpringCloud.App_ResourceGroup appId)
                 (SpringCloud.App_SpringName appId)
                 (SpringCloud.App_AppName appId)
                 (SpringCloud.stringOf (SpringCloud.d st) "name") in
     let rg := SpringCloud.ResourceGroup id in
     let spring := SpringCloud.SpringName id in
     let app := SpringCloud.AppName id in
     let binding := SpringCloud.BindingName id in
     let resource := SpringCloud.bindingResourceOf (SpringCloud.d st) in
     let probe := SpringCloud.Get client (SpringCloud.calls st) rg spring app binding in
     let st1 := SpringCloud.called st (SpringCloud.CallGet rg spring app binding) in
     let creation := SpringCloud.CreateOrUpdate client (SpringCloud.calls st1)
                       rg spring app binding resource in
     let st2 := SpringCloud.called st1
                  (SpringCloud.CallCreateOrUpdate rg spring app binding resource) in
     let waited := SpringCloud.WaitForCompletionRef client (SpringCloud.calls st2)
                     creation.1 in
     let st3 := SpringCloud.called st2 (SpringCloud.CallWaitForCompletionRef creation.1) in
     let create := SpringCloud.resourceSpringCloudAppRedisAssociationCreateUpdate
                     client st in
     (SpringCloud.ResponseWasNotFound (SpringCloud.Response probe.1) = false ->
      create
      = Done (Some match probe.2 with
                   | None =>
                       ImportAsExistsError "azurerm_spring_cloud_app_redis_association"
                         (SpringCloud.AssociationId_ID id)
                   | Some err =>
                       Errorf "checking for present of existing %s: %+v"
                         [ArgString (SpringCloud.AssociationId_String id); ArgError err]
                   end) st1) /\
     (SpringCloud.ResponseWasNotFound (SpringCloud.Response probe.1) = true ->
      (forall err,
         creation.2 = Some err ->
         create
         = Done (Some (Errorf "creating %s: %+v"
                         [ArgString (SpringCloud.AssociationId_String id);
                          ArgError err])) st2) /\
      (forall err,
         creation.2 = None -> waited = Some err ->
         create
         = Done (Some (Errorf "waiting for creation/update of %q: %+v"
                         [ArgString (SpringCloud.AssociationId_String id);
                          ArgError err])) st3) /\
      (creation.2 = None -> waited = None ->
       create
       = SpringCloud.resourceSpringCloudAppRedisAssociationRead client
           (SpringCloud.withId st3 (SpringCloud.AssociationId_ID id))))) /\
  (forall (H : StreamAnalytics.Helpers) metadata st model,
     StreamAnalytics.Decode metadata = (model, None) ->
     let id := StreamAnalytics.NewOutputID
                 (StreamAnalytics.Account_SubscriptionId metadata)
                 (StreamAnalytics.ResourceGroup model)
                 (StreamAnalytics.StreamAnalyticsJob model)
                 (StreamAnalytics.Name model) in
     let rg := StreamAnalytics.Id_ResourceGroup id in
     let job := StreamAnalytics.Id_StreamingjobName id in
     let name := StreamAnalytics.Id_Name id in
     let output := StreamAnalytics.outputOf model in
     let client := StreamAnalytics.OutputsClient_ metadata in
     let probe := StreamAnalytics.Get client (StreamAnalytics.calls st) rg job name in
     let st1 := StreamAnalytics.called st (StreamAnalytics.CallGet rg job name) in
     let creation := StreamAnalytics.CreateOrReplace client (StreamAnalytics.calls st1)
                       output rg job name "" "" in
     let st2 := StreamAnalytics.called st1
                  (StreamAnalytics.CallCreateOrReplace output rg job name "" "") in
     let create := StreamAnalytics.Create metadata st in
     (StreamAnalytics.ResponseWasNotFound (StreamAnalytics.Response probe.1) = false ->
      create
      = Done (Some match probe.2 with
                   | None =>
                       ResourceRequiresImport StreamAnalytics.ResourceType
                         (StreamAnalytics.OutputId_ID id)
                   | Some err =>
                       Errorf "checking for presence of existing %s: %+v"
                         [ArgString (StreamAnalytics.OutputId_String id); ArgError err]
                   end) st1) /\
     (StreamAnalytics.ResponseWasNotFound (StreamAnalytics.Response probe.1) = true ->
      (forall err,
         creation.2 = Some err ->
         create
         = Done (Some (Errorf "creating %s: %+v"
                         [ArgString (StreamAnalytics.OutputId_String id);
                          ArgError err])) st2) /\
      (creation.2 = None ->
       create
       = Done None {| StreamAnalytics.ID := StreamAnalytics.OutputId_ID id;
                      StreamAnalytics.calls := StreamAnalytics.calls st2 |}))).
Proof.
  split.
  - intros H client st appId Hnew Hconf Hparse. cbv zeta.
    rewrite (create_cases client st appId Hnew Hconf Hparse). cbv zeta.
    split; [intros ->; destruct (_.2); reflexivity|].
    intros ->. split; [|split].
    + intros err ->. reflexivity.
    + intros err -> ->. reflexivity.
    + intros -> ->. reflexivity.
  - intros H metadata st model Hdecode. cbv zeta.
    rewrite (output_create_cases metadata st model Hdecode). cbv zeta.
    split; [intros ->; destruct (_.2); reflexivity|].
    intros ->. split.
    + intros err ->. reflexivity.
    + intros ->. reflexivity.
Qed.

(** *** The handlers on the example remote sides *)

Section SpringCloudExamples.
Import SpringCloud SpringCloud.Example.
#[local] Existing Instance helpers.

Lemma create_probes_before_creating_witness :
  resourceSpringCloudAppRedisAssociationCreateUpdate existingRemote planned
  = Done (Some (ImportAsExistsError "azurerm_spring_cloud_app_redis_association"
                  associationIdString))
         (called planned (CallGet "rg1" "spring1" "app1" "redis1")) /\
  resourceSpringCloudAppRedisAssociationCreateUpdate emptyRemote planned
  = resourceSpringCloudAppRedisAssociationRead emptyRemote
      (withId
         (called
            (called (called planned (CallGet "rg1" "spring1" "app1" "redis1"))
               (CallCreateOrUpdate "rg1" "spring1" "app1" "redis1"
                  (bindingResourceOf (d planned))))
            (CallWaitForCompletionRef
               (mkFuture "https://management.azure.com/operations/1")))
         associationIdString) /\
  @StreamAnalytics.Create StreamAnalytics.Example.helpers
    StreamAnalytics.Example.metadata StreamAnalytics.Example.fresh
  = Done None
      {| StreamAnalytics.ID :=
           "/subscriptions/sub1/resourceGroups/rg1/providers/Microsoft.StreamAnalytics/streamingjobs/job1/outputs/output1";
         StreamAnalytics.calls :=
           [StreamAnalytics.CallGet "rg1" "job1" "output1";
            StreamAnalytics.CallCreateOrReplace
              (StreamAnalytics.outputOf StreamAnalytics.Example.model)
              "rg1" "job1" "output1" "" ""] |}.
Proof.
  split; [|split].
  - exact (proj1 (proj1 create_probes_before_creating helpers existingRemote planned
                    (mkSpringCloudAppId "sub1" "rg1" "spring1" "app1")
                    eq_refl eq_refl eq_refl) eq_refl).
  - exact (proj2 (proj2 (proj2 (proj1 create_probes_before_creating helpers
                                  emptyRemote planned
                                  (mkSpringCloudAppId "sub1" "rg1" "spring1" "app1")
                                  eq_refl eq_refl eq_refl) eq_refl)) eq_refl eq_refl).
  - exact (proj2 (proj2 (proj2 create_probes_before_creating
                           StreamAnalytics.Example.helpers
                           StreamAnalytics.Example.metadata
                           StreamAnalytics.Example.fresh
                           StreamAnalytics.Example.model eq_refl) eq_refl) eq_refl).
Defined.

(** The probe of a create is answered with a server error: the response is
    not a not-found one, and the create fails with the error of the check,
    not with the import-required error. *)
Lemma create_probe_error_is_not_import_error :
  IsNewResource (d planned) = true /\
  Get failingRemote (calls planned) "rg1" "spring1" "app1" "redis1"
  = ({| Response := Some (mk_http_Response 500 ""); Properties := None |},
     Some serverError) /\
  ResponseWasNotFound (Some (mk_http_Response 500 "")) = false /\
  resourceSpringCloudAppRedisAssociationCreateUpdate failingRemote planned
  = Done (Some (Errorf "checking for present of existing %s: %+v"
                  [ArgString (AssociationId_String redis1); ArgError serverError]))
         (called planned (CallGet "rg1" "spring1" "app1" "redis1")) /\
  Errorf "checking for present of existing %s: %+v"
    [ArgString (AssociationId_String redis1); ArgError serverError]
  <> ImportAsExistsError "azurerm_spring_cloud_app_redis_association"
       (AssociationId_ID redis1).
Proof. repeat split; try reflexivity. discriminate. Qed.

Lemma read_not_found_clears_identity_witness :
  resourceSpringCloudAppRedisAssociationRead emptyRemote tracked
  = Done None {| d := {| Id := ""; IsNewResource := false;
                         fields := fields (d tracked) |};
                 calls := [CallGet "rg1" "spring1" "app1" "redis1"] |} /\
  resourceSpringCloudAppRedisAssociationRead failingRemote tracked
  = Done (Some (Errorf "reading %s: %+v"
                  [ArgString (AssociationId_String redis1); ArgError serverError]))
         {| d := d tracked; calls := [CallGet "rg1" "spring1" "app1" "redis1"] |}.
Proof.
  split.
  - exact (proj1 (read_not_found_clears_identity emptyRemote tracked redis1
                    _ notFound eq_refl eq_refl) eq_refl).
  - exact (proj2 (read_not_found_clears_identity failingRemote tracked redis1
                    _ serverError eq_refl eq_refl) eq_refl).
Defined.

Lemma delete_returns_errors_of_both_calls_witness :
  resourceSpringCloudAppRedisAssociationDelete existingRemote tracked
  = Done None
      {| d := d tracked;
         calls := [CallDelete "rg1" "spring1" "app1" "redis1";
                   CallWaitForCompletionRef
                     (mkFuture "https://management.azure.com/operations/2")] |}.
Proof.
  exact (proj1 (proj2 (proj2 (delete_returns_errors_of_both_calls existingRemote
                                tracked redis1 eq_refl))) eq_refl eq_refl).
Defined.

(** Deleting an association that is already gone: the deletion call, or
    the wait for its completion, reports not-found, and the handler returns
    that error instead of nil. *)
Lemma delete_not_found_is_an_error :
  (Delete emptyRemote (calls tracked) "rg1" "spring1" "app1" "redis1"
   = (mkFuture "", Some deleteNotFound) /\
   ResponseWasNotFound (errorResponse deleteNotFound) = true /\
   resourceSpringCloudAppRedisAssociationDelete emptyRemote tracked
   = Done (Some (Errorf "deleting %s: %+v"
                   [ArgString (AssociationId_String redis1); ArgError deleteNotFound]))
          (called tracked (CallDelete "rg1" "spring1" "app1" "redis1"))) /\
  (WaitForCompletionRef failingRemote
     [CallDelete "rg1" "spring1" "app1" "redis1"]
     (mkFuture "https://management.azure.com/operations/2")
   = Some pollNotFound /\
   ResponseWasNotFound (errorResponse pollNotFound) = true /\
   resourceSpringCloudAppRedisAssociationDelete failingRemote tracked
   = Done (Some (Errorf "waiting for deletion of %q: %+v"
                   [ArgString (AssociationId_String redis1); ArgError pollNotFound]))
          (called (called tracked (CallDelete "rg1" "spring1" "app1" "redis1"))
             (CallWaitForCompletionRef
                (mkFuture "https://management.azure.com/operations/2")))).
Proof. repeat split. Qed.

End SpringCloudExamples.

(** ** More on the list client *)

Section ConfigurationsMore.
Import Configurations ConfigurationsInvariants.
Context {P : Package} {L : Libraries}.

Implicit Types (c : ConfigurationsClient) (id : ServerId)
  (predicate : ServerConfigurationPredicate) (page : ListByServerResponse)
  (log : Log).

(** *** The two preparers *)

Lemma preparer_initial c id :
  exists req,
    preparerForListByServer c id = (Some req, autorest_Prepare req) /\
    requestOf c req.
Proof. eexists. split; [reflexivity|]. repeat split. Qed.

Lemma preparer_next c link :
  (exists cause, preparerForListByServerWithNextLink c link
                 = (None, Some cause)) \/
  (exists req, preparerForListByServerWithNextLink c link
               = (Some req, autorest_Prepare req) /\ requestOf c req).
Proof.
  unfold preparerForListByServerWithNextLink.
  destruct (url_Parse link) as [uri [cause|]].
  - left. eexists. reflexivity.
  - right. eexists. split; [reflexivity|]. repeat split.
Qed.

(** *** One fetch *)

Lemma sendAndRespond_inv c prepared log :
  (exists cause, prepared = (None, Some cause)) \/
  (exists req, prepared = (Some req, autorest_Prepare req) /\ requestOf c req) ->
  exists page err new,
    sendAndRespond c prepared log = Done (page, err) (log ++ new) /\
    Forall (requestOf c) new /\ length new <= 1 /\
    (err = None -> ownedBy c page).
Proof.
  intros [[cause ->]|(req & -> & Hreq)]; unfold sendAndRespond.
  - eexists _, _, []. rewrite app_nil_r. split; [reflexivity|].
    split; [constructor|]. split; [simpl; lia|]. discriminate.
  - destruct (autorest_Prepare req) as [cause|].
    + eexists _, _, []. rewrite app_nil_r. split; [reflexivity|].
      split; [constructor|]. split; [simpl; lia|]. discriminate.
    + unfold bind, send.
      destruct (Send (Client c) log req) as [resp [cause|]].
      * eexists _, _, [req]. split; [reflexivity|].
        split; [repeat constructor; apply Hreq|]. split; [simpl; lia|]. discriminate.
      * unfold responderForListByServer.
        destruct (autorest_Respond resp) as [respObj [cause|]].
        -- eexists _, _, [req]. split; [reflexivity|].
           split; [repeat constructor; apply Hreq|]. split; [simpl; lia|]. discriminate.
        -- eexists _, _, [req]. split; [reflexivity|].
           split; [repeat constructor; apply Hreq|]. split; [simpl; lia|].
           intros _. unfold ownedBy. simpl. destruct (NextLink respObj); reflexivity.
Qed.

Lemma ListByServer_inv c id log :
  exists page err new,
    ListByServer c id log = Done (page, err) (log ++ new) /\
    Forall (requestOf c) new /\ length new <= 1 /\
    (err = None -> ownedBy c page).
Proof.
  apply sendAndRespond_inv. right.
  destruct (preparer_initial c id) as (req & -> & Hreq). eauto.
Qed.

Lemma LoadMore_inv c page log :
  ownedBy c page ->
  exists page' err new,
    LoadMore page log = Done (page', err) (log ++ new) /\
    Forall (requestOf c) new /\ length new <= 1 /\
    (err = None -> ownedBy c page').
Proof.
  unfold ownedBy, LoadMore, HasMore. intros Hown.
  destruct (nextLink page) as [link|]; simpl in *.
  - rewrite Hown. simpl. apply sendAndRespond_inv, preparer_next.
  - eexists _, _, []. rewrite app_nil_r. split; [reflexivity|].
    split; [constructor|]. split; [simpl; lia|]. discriminate.
Qed.

Lemma loadRemaining_inv c predicate fuel :
  forall page items log,
    ownedBy c page ->
    loadRemaining fuel predicate page items log = OutOfFuel \/
    exists res err new,
      loadRemaining fuel predicate page items log = Done (res, err) (log ++ new) /\
      Forall (requestOf c) new /\ length new <= fuel.
Proof.
  induction fuel as [|fuel IH]; intros page items log Hown; simpl;
    destruct (HasMore page); auto;
    try (right; eexists _, _, []; rewrite app_nil_r;
         split; [reflexivity|]; split; [constructor|simpl; lia]).
  unfold bind.
  destruct (LoadMore_inv c page log Hown) as (page' & err & new & -> & Hnew & Hlen & Hown').
  destruct err as [cause|].
  - right. eexists _, _, new. split; [reflexivity|]. split; [assumption|lia].
  - destruct (IH page' (appendMatching predicate page' items) (log ++ new)
                (Hown' eq_refl)) as [->|(res & err & new' & -> & Hnew' & Hlen')];
      [left; reflexivity|].
    right. eexists _, _, (new ++ new'). rewrite app_assoc.
    split; [reflexivity|]. split; [now apply Forall_app|].
    rewrite length_app. lia.
Qed.

Lemma complete_inv fuel c id predicate log :
  ListByServerCompleteMatchingPredicate fuel c id predicate log = OutOfFuel \/
  exists res err new,
    ListByServerCompleteMatchingPredicate fuel c id predicate log
    = Done (res, err) (log ++ new) /\
    Forall (requestOf c) new /\ length new <= S fuel.
Proof.
  unfold ListByServerCompleteMatchingPredicate, bind.
  destruct (ListByServer_inv c id log) as (page & err & new & -> & Hnew & Hlen & Hown).
  destruct err as [cause|].
  - right. eexists _, _, new. split; [reflexivity|]. split; [assumption|lia].
  - destruct (loadRemaining_inv c predicate fuel page
                (appendMatching predicate page []) (log ++ new) (Hown eq_refl))
      as [->|(res & err & new' & -> & Hnew' & Hlen')]; [left; reflexivity|].
    right. eexists _, _, (new ++ new'). rewrite app_assoc.
    split; [reflexivity|]. split; [now apply Forall_app|].
    rewrite length_app. lia.
Qed.

(** *** Properties *)

(** X1. The completion never panics: the next-page function it calls is
    never nil and the request it sends is never nil, whatever the remote
    side answers. *)
Theorem complete_never_panics fuel c id predicate log log' :
  ListByServerCompleteMatchingPredicate fuel c id predicate log <> Panic log'.
Proof.
  destruct (complete_inv fuel c id predicate log)
    as [->|(res & err & new & -> & _)]; discriminate.
Qed.

(** X2. Whatever the completion returns, it has only appended to the log
    of requests, and every request it sent is a JSON GET on the base URI
    of the client, also those that follow a continuation token; with a
    budget of [fuel] loop iterations it sends at most [fuel + 1]. *)
Theorem complete_sends_only_gets fuel c id predicate log res log' :
  ListByServerCompleteMatchingPredicate fuel c id predicate log = Done res log' ->
  exists new,
    log' = log ++ new /\
    Forall (fun req => Method req = "GET" /\ BaseURL req = baseUri c /\
                       ContentType req = "application/json; charset=utf-8") new /\
    length new <= S fuel.
Proof.
  intros Hdone.
  destruct (complete_inv fuel c id predicate log)
    as [Hout|(res' & err & new & Heq & Hnew & Hlen)]; [congruence|].
  rewrite Heq in Hdone. injection Hdone as _ <-. eauto.
Qed.


(** X4. When the first page carries a continuation token that does not
    parse as a URL, the completion sends the initial request only, drops
    the items of the first page and fails with "loading the next page"
    around "Failure preparing request" around "parsing nextLink". *)
Theorem complete_unparsable_token fuel c id predicate log req resp p link cause :
  preparerForListByServer c id = (Some req, None) ->
  Send (Client c) log req = (resp, None) ->
  autorest_Respond resp = (p, None) ->
  NextLink p = Some link ->
  (url_Parse link).2 = Some cause ->
  ListByServerCompleteMatchingPredicate (S fuel) c id predicate log
  = Done (zeroCompleteResult,
          Some (Errorf "loading the next page: %+v"
                  [ArgError (unparsableToken link cause)])) (log ++ [req]).
Proof.
  intros Hprep Hsend Hresp Hlink Hparse.
  unfold ListByServerCompleteMatchingPredicate, bind, ListByServer.
  rewrite Hprep, (sendAndRespond_served _ _ _ _ _ Hsend Hresp), Hlink. simpl.
  unfold bind, LoadMore. simpl.
  unfold preparerForListByServerWithNextLink.
  destruct (url_Parse link) as [uri err]. simpl in Hparse. subst err.
  reflexivity.
Qed.

(** X5. A completion with a predicate returns what the unfiltered
    completion returns, filtered: when the empty predicate matches every
    item and [ListByServerComplete] succeeds with the items [all], the
    completion with [predicate] succeeds with the items of [all] that
    match, in the same order and with the same requests sent. *)
Theorem complete_with_predicate_filters_complete fuel c id predicate log all log' :
  (forall v, Matches emptyPredicate v = true) ->
  ListByServerComplete fuel c id log = Done (all, None) log' ->
  ListByServerCompleteMatchingPredicate fuel c id predicate log
  = Done ({| Items := List.filter (Matches predicate) (Items all) |}, None) log'.
Proof.
  intros Hall. unfold ListByServerComplete. rewrite !complete_drain.
  unfold drainThenFilter.
  destruct (drainPages fuel c id log) as [[pages [err|]] log1| |]; simpl;
    try discriminate.
  intros [= <- <-]. simpl. do 3 f_equal.
  rewrite (forallb_filter_id (Matches emptyPredicate)); [reflexivity|].
  apply forallb_forall. intros v _. apply Hall.
Qed.

(** X6. The predicate decides the items and nothing else: every item the
    completion returns matches the predicate, and with any other predicate
    the completion ends with the same error (or none) and the same requests
    sent. *)
Theorem complete_predicate_only_selects fuel c id predicate log res err log' :
  ListByServerCompleteMatchingPredicate fuel c id predicate log
  = Done (res, err) log' ->
  Forall (fun v => Matches predicate v = true) (Items res) /\
  forall predicate',
    exists res',
      ListByServerCompleteMatchingPredicate fuel c id predicate' log
      = Done (res', err) log'.
Proof.
  rewrite complete_drain. unfold drainThenFilter.
  destruct (drainPages fuel c id log) as [[pages [cause|]] log1| |] eqn:Hdrain;
    simpl; try discriminate; intros [= <- <- <-]; split.
  - constructor.
  - intros predicate'. rewrite complete_drain. unfold drainThenFilter.
    rewrite Hdrain. eexists. reflexivity.
  - simpl. apply List.Forall_forall. intros v [_ Hv]%filter_In. exact Hv.
  - intros predicate'. rewrite complete_drain. unfold drainThenFilter.
    rewrite Hdrain. eexists. reflexivity.
Qed.

End ConfigurationsMore.

(** ** The list method of the object replication policies *)

Section ObjectReplicationPoliciesFacts.
Import Configurations ObjectReplicationPolicies.
Context {P : ObjectReplicationPolicies.Package} {L : ObjectReplicationPolicies.Libraries}.

(** X7. [List] prepares a JSON GET on the identifier's path followed by
    "/objectReplicationPolicies", with the API version as its only query
    parameter.  When preparing fails nothing is sent; otherwise exactly
    that request is sent, the result carries the raw response of the send
    also when the call fails, a model is returned only after a successful
    send, and the call succeeds exactly when both sending and responding
    do. *)
Theorem list_sends_one_request (c : ObjectReplicationPoliciesClient)
    (id : StorageAccountId) (log : Log) :
  exists req,
    preparerForList c id = (Some req, autorest_Prepare req) /\
    Method req = "GET" /\
    BaseURL req = ObjectReplicationPolicies.baseUri c /\
    Path req = StorageAccountId_ID id +:+ "/objectReplicationPolicies" /\
    QueryParameters req = {[ "api-version" := defaultApiVersion ]} /\
    (forall cause,
       autorest_Prepare req = Some cause ->
       List c id log
       = Done (zeroListResponse,
               Some (NewErrorWithError cause ObjectReplicationPolicies.packageType
                       "List" None "Failure preparing request")) log) /\
    (autorest_Prepare req = None ->
     let sent := Send (ObjectReplicationPolicies.Client c) log req in
     let responded := autorest_Respond sent.1 in
     exists result err,
       List c id log = Done (result, err) (log ++ [req]) /\
       ObjectReplicationPolicies.HttpResponse result = sent.1 /\
       (err = None <-> sent.2 = None /\ responded.2 = None) /\
       (sent.2 <> None -> ObjectReplicationPolicies.Model result = None) /\
       (sent.2 = None -> ObjectReplicationPolicies.Model result = responded.1)).
Proof.
  eexists. split; [reflexivity|]. simpl. repeat split.
  - intros cause Hprep. unfold List, preparerForList. rewrite Hprep. reflexivity.
  - intros Hprep. unfold List, preparerForList. rewrite Hprep.
    unfold bind, ObjectReplicationPolicies.send, responderForList.
    destruct (Send _ log _) as [resp [cause|]]; simpl.
    + eexists _, _. split; [reflexivity|]. simpl.
      repeat split; try discriminate; try tauto.
      intros [[=] _].
    + destruct (autorest_Respond resp) as [model [cause|]]; simpl;
        eexists _, _; (split; [reflexivity|]); simpl;
        repeat split; try discriminate; try tauto.
      intros [_ [=]].
Qed.

End ObjectReplicationPoliciesFacts.

(** ** The checks of the firewall acceptance tests *)

Section FirewallFacts.
Import Firewall.
Context {H : Firewall.Helpers}.

(** X8. [Exists] answers only when [Get] returned no error, and then with
    whether the firewall has properties; for every error of [Get], a
    not-found one included, it returns no answer but the error wrapped in
    "retrieving Azure Firewall".  It makes exactly one call when the
    identifier parses and none when it does not. *)
Theorem exists_answers_only_after_get (client : AzureFirewallsClient)
    (state : InstanceState) (log : list Call) :
  (forall cause,
     (FirewallID (ID state)).2 = Some cause ->
     Exists client state log = Done (None, Some cause) log) /\
  (forall id,
     FirewallID (ID state) = (Some id, None) ->
     let got := Get client log (ResourceGroup id) (AzureFirewallName id) in
     let log' := log ++ [CallGet (ResourceGroup id) (AzureFirewallName id)] in
     (forall cause,
        got.2 = Some cause ->
        Exists client state log
        = Done (None,
                Some (Errorf "retrieving Azure Firewall %s : %v"
                        [ArgString (FirewallId_String id); ArgError cause])) log') /\
     (got.2 = None ->
      Exists client state log
      = Done (Some (bool_decide (is_Some (AzureFirewallPropertiesFormat_ got.1))),
              None) log')).
Proof.
  split.
  - intros cause Hparse. unfold Exists.
    destruct (FirewallID (ID state)) as [id err]. simpl in Hparse. subst err.
    reflexivity.
  - intros id Hparse. unfold Exists, bind, client_Get. rewrite Hparse. simpl.
    destruct (Get client log _ _) as [resp [cause|]]; simpl; split;
      try discriminate.
    + intros cause' [= <-]. reflexivity.
    + intros _. destruct (AzureFirewallPropertiesFormat_ resp); reflexivity.
Qed.

(** X9. [Destroy] never answers false: it answers true exactly when the
    deletion was accepted and the wait for its completion returned no
    error, and otherwise returns no answer but the error of the step that
    failed; the wait is only started after an accepted deletion. *)
Theorem destroy_answers_true_or_fails (client : AzureFirewallsClient)
    (state : InstanceState) (log : list Call) (id : FirewallId) :
  FirewallID (ID state) = (Some id, None) ->
  let deletion := Delete client log (ResourceGroup id) (AzureFirewallName id) in
  let log1 := log ++ [CallDelete (ResourceGroup id) (AzureFirewallName id)] in
  let waited := WaitForCompletionRef client log1 deletion.1 in
  let log2 := log1 ++ [CallWaitForCompletionRef deletion.1] in
  (forall cause,
     deletion.2 = Some cause ->
     Destroy client state log
     = Done (None,
             Some (Errorf "deleting Azure Firewall %q: %+v"
                     [ArgString (AzureFirewallName id); ArgError cause])) log1) /\
  (forall cause,
     deletion.2 = None -> waited = Some cause ->
     Destroy client state log
     = Done (None,
             Some (Errorf "waiting for Deletion on azureFirewallsClient: %+v"
                     [ArgError cause])) log2) /\
  (deletion.2 = None -> waited = None ->
   Destroy client state log = Done (Some true, None) log2) /\
  (forall answer err log',
     Destroy client state log = Done (Some answer, err) log' ->
     answer = true /\ err = None /\ deletion.2 = None /\ waited = None).
Proof.
  intros Hparse deletion log1 waited log2.
  unfold Destroy, bind, client_Delete, future_WaitForCompletionRef.
  rewrite Hparse. simpl. fold deletion. fold log1.
  destruct deletion as [future [cause|]] eqn:Hdel; simpl in *.
  - repeat split; try discriminate.
    intros cause' [= <-]. reflexivity.
  - fold waited. fold log2. destruct waited as [cause|]; simpl.
    + repeat split; try discriminate.
      intros cause' _ [= <-]. reflexivity.
    + split; [discriminate|]. split; [discriminate|]. split; [reflexivity|].
      intros answer err log' [= <- <- _]. auto.
Qed.

End FirewallFacts.

(** ** More on the Spring Cloud association handlers *)

Section SpringCloudMore.
Import SpringCloud SpringCloudScenarios.
Context {H : SpringCloud.Helpers}.

Implicit Types (client : BindingsClient) (st : Store).

Lemma read_found client st id resp :
  SpringCloudAppAssociationID (Id (d st)) = (Some id, None) ->
  Get client (calls st) (ResourceGroup id) (SpringName id) (AppName id)
    (BindingName id) = (resp, None) ->
  let after fields :=
    {| d := {| Id := Id (d st); IsNewResource := IsNewResource (d st);
               fields := fields |};
       calls := calls st ++ [CallGet (ResourceGroup id) (SpringName id)
                               (AppName id) (BindingName id)] |} in
  resourceSpringCloudAppRedisAssociationRead client st
  = match Properties resp with
    | None => Done None (after (refreshed H id None (fields (d st))))
    | Some props =>
        match sslParameter props with
        | Some enableSSL =>
            Done None (after (refreshed H id (Some (props, enableSSL)) (fields (d st))))
        | None =>
            Panic (after (<["redis_cache_id" := ofStringPtr (ResourceID props)]>
                            (refreshed H id None (fields (d st)))))
        end
    end.
Proof.
  intros Hparse Hget.
  unfold resourceSpringCloudAppRedisAssociationRead, bind, d_Id, client_Get.
  rewrite Hparse. simpl. rewrite Hget.
  unfold d_Set, sslParameter, refreshed, springCloudAppRedisAssociationKeySSL. simpl.
  destruct (Properties resp) as [props|]; [|reflexivity]. simpl.
  destruct (BindingParameters props !! "useSsl") as [[s|b|]|]; reflexivity.
Qed.

(** X10. On an update (the resource data is not new) the handler does not
    probe: its first call is the creation call, so an update never fails
    with the import-required error; it waits for the operation and then
    reads the resource back. *)
Theorem update_does_not_probe client st appId :
  IsNewResource (d st) = false ->
  conforms (d st) = true ->
  SpringCloudAppID (stringOf (d st) "spring_cloud_app_id") = (Some appId, None) ->
  let id := NewSpringCloudAppAssociationID (App_SubscriptionId appId)
              (App_ResourceGroup appId) (App_SpringName appId) (App_AppName appId)
              (stringOf (d st) "name") in
  let resource := bindingResourceOf (d st) in
  let creation := CreateOrUpdate client (calls st) (ResourceGroup id)
                    (SpringName id) (AppName id) (BindingName id) resource in
  let st1 := called st (CallCreateOrUpdate (ResourceGroup id) (SpringName id)
                          (AppName id) (BindingName id) resource) in
  let waited := WaitForCompletionRef client (calls st1) creation.1 in
  let st2 := called st1 (CallWaitForCompletionRef creation.1) in
  resourceSpringCloudAppRedisAssociationCreateUpdate client st
  = match creation.2 with
    | Some err =>
        Done (Some (Errorf "creating %s: %+v"
                      [ArgString (AssociationId_String id); ArgError err])) st1
    | None =>
        match waited with
        | Some err =>
            Done (Some (Errorf "waiting for creation/update of %q: %+v"
                          [ArgString (AssociationId_String id); ArgError err])) st2
        | None =>
            resourceSpringCloudAppRedisAssociationRead client
              (withId st2 (AssociationId_ID id))
        end
    end.
Proof.
  intros Hold Hconf Hparse.
  destruct (conforms_values _ Hconf) as (Hname & Happ & Hcache & Hkey & Hssl).
  unfold resourceSpringCloudAppRedisAssociationCreateUpdate.
  unfold bind at 1. unfold bind at 1. unfold d_Get at 1. rewrite Happ. simpl.
  rewrite Hparse.
  unfold bind at 1. unfold bind at 1. unfold d_Get at 1. rewrite Hname. simpl.
  unfold bind at 1. unfold d_IsNewResource at 1. rewrite Hold.
  unfold bind, d_Get, client_CreateOrUpdate, future_WaitForCompletionRef, d_SetId.
  simpl. rewrite Hssl. simpl. rewrite Hkey. simpl. rewrite Hcache. simpl.
  fold (bindingResourceOf (d st)).
  destruct (CreateOrUpdate client _ _ _ _ _ _) as [future [err|]]; simpl;
    [reflexivity|].
  destruct (WaitForCompletionRef client _ future); reflexivity.
Qed.


(** X12. A read panics when the binding it finds holds a "useSsl"
    parameter that is not a string (a boolean, as a create sends it, or
    null): the type assertion has no check.  The call has been made and the
    first three attributes have been written by then. *)
Theorem read_panics_on_non_string_ssl client st id resp props :
  SpringCloudAppAssociationID (Id (d st)) = (Some id, None) ->
  Get client (calls st) (ResourceGroup id) (SpringName id) (AppName id)
    (BindingName id) = (resp, None) ->
  Properties resp = Some props ->
  sslParameter props = None ->
  exists st',
    resourceSpringCloudAppRedisAssociationRead client st = Panic st' /\
    calls st' = calls st ++ [CallGet (ResourceGroup id) (SpringName id)
                               (AppName id) (BindingName id)] /\
    fields (d st') !! "redis_cache_id" = Some (ofStringPtr (ResourceID props)).
Proof.
  intros Hparse Hget Hprops Hssl.
  rewrite (read_found _ _ _ _ Hparse Hget), Hprops, Hssl.
  eexists. split; [reflexivity|]. simpl. split; [reflexivity|].
  apply lookup_insert_eq.
Qed.

(** X13. An identifier that does not parse stops a handler before any
    call: read and delete return the parser's error as it is and leave the
    store untouched when the stored identifier does not parse, and so does
    create or update when the app identifier of the configuration does
    not. *)
Theorem unparsable_identifier_makes_no_call client st :
  (forall cause,
     (SpringCloudAppAssociationID (Id (d st))).2 = Some cause ->
     resourceSpringCloudAppRedisAssociationRead client st = Done (Some cause) st /\
     resourceSpringCloudAppRedisAssociationDelete client st = Done (Some cause) st) /\
  (forall cause,
     conforms (d st) = true ->
     (SpringCloudAppID (stringOf (d st) "spring_cloud_app_id")).2 = Some cause ->
     resourceSpringCloudAppRedisAssociationCreateUpdate client st
     = Done (Some cause) st).
Proof.
  split.
  - intros cause Hparse.
    unfold resourceSpringCloudAppRedisAssociationRead,
      resourceSpringCloudAppRedisAssociationDelete, bind, d_Id.
    destruct (SpringCloudAppAssociationID (Id (d st))) as [id err].
    simpl in Hparse. subst err. split; reflexivity.
  - intros cause Hconf Hparse.
    destruct (conforms_values _ Hconf) as (_ & Happ & _).
    unfold resourceSpringCloudAppRedisAssociationCreateUpdate.
    unfold bind at 1. unfold bind at 1. unfold d_Get at 1. rewrite Happ. simpl.
    destruct (SpringCloudAppID _) as [appId err]. simpl in Hparse. subst err.
    reflexivity.
Qed.

(** X14. A create can return nil without an identifier: when the probe
    reports not-found, the creation is accepted and the wait succeeds, but
    the read that ends the create is again told not-found, the handler
    returns nil and the identifier it had just recorded is the empty string
    again. *)
Theorem create_then_not_found_returns_nil_without_id client st appId resp err :
  IsNewResource (d st) = true ->
  conforms (d st) = true ->
  SpringCloudAppID (stringOf (d st) "spring_cloud_app_id") = (Some appId, None) ->
  let id := NewSpringCloudAppAssociationID (App_SubscriptionId appId)
              (App_ResourceGroup appId) (App_SpringName appId) (App_AppName appId)
              (stringOf (d st) "name") in
  let get := CallGet (ResourceGroup id) (SpringName id) (AppName id) (BindingName id) in
  let resource := bindingResourceOf (d st) in
  let probe := Get client (calls st) (ResourceGroup id) (SpringName id)
                 (AppName id) (BindingName id) in
  let st1 := called st get in
  let creation := CreateOrUpdate client (calls st1) (ResourceGroup id)
                    (SpringName id) (AppName id) (BindingName id) resource in
  let st2 := called st1 (CallCreateOrUpdate (ResourceGroup id) (SpringName id)
                           (AppName id) (BindingName id) resource) in
  let st3 := called st2 (CallWaitForCompletionRef creation.1) in
  ResponseWasNotFound (Response probe.1) = true ->
  creation.2 = None ->
  WaitForCompletionRef client (calls st2) creation.1 = None ->
  SpringCloudAppAssociationID (AssociationId_ID id) = (Some id, None) ->
  Get client (calls st3) (ResourceGroup id) (SpringName id) (AppName id)
    (BindingName id) = (resp, Some err) ->
  ResponseWasNotFound (Response resp) = true ->
  resourceSpringCloudAppRedisAssociationCreateUpdate client st
  = Done None {| d := {| Id := ""; IsNewResource := true; fields := fields (d st) |};
                 calls := calls st3 ++ [get] |}.
Proof.
  intros Hnew Hconf Hparse. cbv zeta.
  intros Hprobe Hcreated Hwaited Hround Hget Hgone.
  rewrite (create_cases client st appId Hnew Hconf Hparse). cbv zeta.
  rewrite Hprobe, Hcreated, Hwaited.
  match goal with
  | |- resourceSpringCloudAppRedisAssociationRead client ?s = _ =>
      rewrite (read_cases client s _ Hround resp err Hget)
  end.
  cbv zeta. rewrite Hgone. unfold withId, called. simpl. rewrite Hnew. reflexivity.
Qed.

End SpringCloudMore.

(** ** More on the table output *)

Section StreamAnalyticsMore.
Import StreamAnalytics.
Context {H : StreamAnalytics.Helpers}.

(** X15. [Create] always returns, after at most two calls of which the
    first is the probe; it records an identifier exactly when it returns
    nil, and that identifier is the one built from the subscription of the
    account and the resource group, job and name of the decoded model. *)
Theorem output_create_records_id_iff_nil (metadata : ResourceMetaData) (st : Store) :
  let model := (Decode metadata).1 in
  let id := NewOutputID (Account_SubscriptionId metadata) (ResourceGroup model)
              (StreamAnalyticsJob model) (Name model) in
  exists err st' new,
    Create metadata st = Done err st' /\
    calls st' = calls st ++ new /\ length new <= 2 /\
    (forall call, head new = Some call ->
                  call = CallGet (Id_ResourceGroup id) (Id_StreamingjobName id)
                           (Id_Name id)) /\
    (err = None -> ID st' = OutputId_ID id) /\
    (err <> None -> ID st' = ID st).
Proof.
  cbv zeta. destruct (Decode metadata) as [model [cause|]] eqn:Hdecode.
  - unfold Create. rewrite Hdecode.
    eexists _, _, []. split; [reflexivity|]. rewrite app_nil_r. simpl.
    repeat split; try lia; try discriminate.
  - rewrite (output_create_cases metadata st model Hdecode). cbv zeta. simpl.
    destruct (ResponseWasNotFound _).
    + destruct (CreateOrReplace _ _ _ _ _ _ _ _) as [created [cause|]]; simpl.
      * eexists _, _, [_; _]. split; [reflexivity|]. simpl.
        rewrite <- app_assoc. repeat split; try lia; try congruence.
      * eexists _, _, [_; _]. split; [reflexivity|]. simpl.
        rewrite <- app_assoc. repeat split; try lia; try congruence.
    + eexists _, _, [_]. split; [reflexivity|]. simpl.
      repeat split; try lia; try congruence.
Qed.

End StreamAnalyticsMore.

(** ** The properties on the example remote sides *)

Section ConfigurationsMoreExamples.
Import Configurations Configurations.Example.
#[local] Existing Instance package.
#[local] Existing Instance libraries.

Lemma complete_sends_only_gets_witness :
  exists res log' new,
    ListByServerCompleteMatchingPredicate 2 (client "") serverId None [] = Done res log' /\
    log' = [] ++ new /\ length new <= 3.
Proof.
  pose proof (complete_sends_only_gets 2 (client "") serverId None [] _ _ eq_refl)
    as (new & Hlog & _ & Hlen).
  eexists _, _, new. split; [reflexivity|]. split; assumption.
Defined.

Lemma complete_with_predicate_filters_complete_witness :
  exists log',
    ListByServerCompleteMatchingPredicate 2 (client "") serverId (Some 4) []
    = Done ({| Items := [4]%nat |}, None) log'.
Proof.
  eexists.
  exact (complete_with_predicate_filters_complete 2 (client "") serverId (Some 4) []
           _ _ (fun v => eq_refl) eq_refl).
Defined.

Lemma complete_predicate_only_selects_witness :
  Forall (fun v => Nat.eqb 4 v = true) [4]%nat.
Proof.
  exact (proj1 (complete_predicate_only_selects 2 (client "") serverId (Some 4) []
                  _ _ _ eq_refl)).
Defined.

End ConfigurationsMoreExamples.

Section UnparsableTokenExamples.
Import Configurations ConfigurationsInvariants ConfigurationsInvariants.Example.
#[local] Existing Instance Configurations.Example.package.
#[local] Existing Instance libraries.


Lemma complete_unparsable_token_witness :
  exists cause log',
    ListByServerCompleteMatchingPredicate 1 client Configurations.Example.serverId None []
    = Done (zeroCompleteResult,
            Some (Errorf "loading the next page: %+v"
                    [ArgError (unparsableToken ":next" cause)])) log'.
Proof.
  eexists _, _.
  exact (complete_unparsable_token 0 client Configurations.Example.serverId None []
           _ _ _ _ _ eq_refl eq_refl eq_refl eq_refl eq_refl).
Defined.

End UnparsableTokenExamples.

Section ObjectReplicationPoliciesExamples.
Import Configurations ObjectReplicationPolicies ObjectReplicationPolicies.Example.
#[local] Existing Instance package.
#[local] Existing Instance libraries.

Lemma list_sends_one_request_witness :
  exists result log',
    List (client 200) accountId [] = Done (result, None) log' /\
    length log' = 1 /\
    ObjectReplicationPolicies.Model result = Some [1; 2]%nat.
Proof.
  destruct (list_sends_one_request (client 200) accountId [])
    as (req & _ & _ & _ & _ & _ & _ & Hsent).
  destruct (Hsent eq_refl) as (result & err & Hlist & _ & Hiff & _ & Hmodel).
  assert (err = None) as -> by (apply Hiff; split; reflexivity).
  eexists _, _. split; [exact Hlist|]. split; [reflexivity|exact (Hmodel eq_refl)].
Defined.

End ObjectReplicationPoliciesExamples.

Section FirewallExamples.
Import Firewall Firewall.Example.
#[local] Existing Instance helpers.

Lemma exists_answers_only_after_get_witness :
  Exists remote state [] = Done (Some true, None) [CallGet "rg1" "fw1"] /\
  Exists remote state [CallDelete "rg1" "fw1"]
  = Done (None,
          Some (Errorf "retrieving Azure Firewall %s : %v"
                  [ArgString "Azure Firewall: fw1"; ArgError gone]))
         [CallDelete "rg1" "fw1"; CallGet "rg1" "fw1"].
Proof.
  split.
  - exact (proj2 (proj2 (exists_answers_only_after_get remote state [])
                    (mkFirewallId "sub1" "rg1" "fw1") eq_refl) eq_refl).
  - exact (proj1 (proj2 (exists_answers_only_after_get remote state
                           [CallDelete "rg1" "fw1"])
                    (mkFirewallId "sub1" "rg1" "fw1") eq_refl) gone eq_refl).
Defined.

Lemma destroy_answers_true_or_fails_witness :
  Destroy remote state []
  = Done (Some true, None)
      [CallDelete "rg1" "fw1";
       CallWaitForCompletionRef (mkFuture "https://management.azure.com/operations/3")].
Proof.
  exact (proj1 (proj2 (proj2 (destroy_answers_true_or_fails remote state []
                                (mkFirewallId "sub1" "rg1" "fw1") eq_refl)))
           eq_refl eq_refl).
Defined.

End FirewallExamples.

Section SpringCloudMoreExamples.
Import SpringCloud SpringCloud.Example SpringCloudScenarios.
#[local] Existing Instance helpers.

Lemma update_does_not_probe_witness :
  resourceSpringCloudAppRedisAssociationCreateUpdate existingRemote tracked
  = resourceSpringCloudAppRedisAssociationRead existingRemote
      (withId
         (called
            (called tracked
               (CallCreateOrUpdate "rg1" "spring1" "app1" "redis1"
                  (bindingResourceOf (d tracked))))
            (CallWaitForCompletionRef
               (mkFuture "https://management.azure.com/operations/1")))
         associationIdString).
Proof.
  exact (update_does_not_probe existingRemote tracked
           (mkSpringCloudAppId "sub1" "rg1" "spring1" "app1")
           eq_refl eq_refl eq_refl).
Defined.


Lemma read_panics_on_non_string_ssl_witness :
  exists st', resourceSpringCloudAppRedisAssociationRead echoingRemote tracked = Panic st'.
Proof.
  edestruct (read_panics_on_non_string_ssl echoingRemote tracked redis1 echoed)
    as (st' & Hread & _); [reflexivity..|].
  exists st'. exact Hread.
Defined.

Lemma unparsable_identifier_makes_no_call_witness :
  resourceSpringCloudAppRedisAssociationRead emptyRemote planned
  = Done (Some (upstream "ID was missing an element")) planned /\
  resourceSpringCloudAppRedisAssociationCreateUpdate emptyRemote misconfigured
  = Done (Some (upstream "ID was missing an element")) misconfigured.
Proof.
  split.
  - exact (proj1 (proj1 (unparsable_identifier_makes_no_call emptyRemote planned)
                    _ eq_refl)).
  - exact (proj2 (unparsable_identifier_makes_no_call emptyRemote misconfigured)
             _ eq_refl eq_refl).
Defined.

Lemma create_then_not_found_returns_nil_without_id_witness :
  resourceSpringCloudAppRedisAssociationCreateUpdate vanishingRemote planned
  = Done None
      {| d := {| Id := ""; IsNewResource := true; fields := fields (d planned) |};
         calls := [CallGet "rg1" "spring1" "app1" "redis1";
                   CallCreateOrUpdate "rg1" "spring1" "app1" "redis1"
                     (bindingResourceOf (d planned));
                   CallWaitForCompletionRef
                     (mkFuture "https://management.azure.com/operations/1");
                   CallGet "rg1" "spring1" "app1" "redis1"] |}.
Proof.
  exact (create_then_not_found_returns_nil_without_id vanishingRemote planned
           (mkSpringCloudAppId "sub1" "rg1" "spring1" "app1") _ _
           eq_refl eq_refl eq_refl eq_refl eq_refl eq_refl eq_refl eq_refl eq_refl).
Defined.

End SpringCloudMoreExamples.

Section StreamAnalyticsMoreExamples.
Import StreamAnalytics StreamAnalytics.Example.
#[local] Existing Instance helpers.

Lemma output_create_records_id_iff_nil_witness :
  exists st',
    Create metadata fresh = Done None st' /\
    ID st'
    = "/subscriptions/sub1/resourceGroups/rg1/providers/Microsoft.StreamAnalytics/streamingjobs/job1/outputs/output1".
Proof.
  destruct (output_create_records_id_iff_nil metadata fresh)
    as (err & st' & new & Hcreate & _ & _ & _ & Hnil & _).
  assert (err = None) as -> by (injection Hcreate as <- _; reflexivity).
  exists st'. split; [exact Hcreate|exact (Hnil eq_refl)].
Defined.

End StreamAnalyticsMoreExamples.
